(** * predictive_app.py: the predict / hold / feedback workflow

    A shallow embedding of the Streamlit script [predictive_app.py].  One
    execution of the script (a "rerun") is a computation over a [World]
    holding [st.session_state], the wall clock, the monitoring log owned by
    [log_utils.log_prediction] and a trace of everything the script asked of
    its collaborators (clock readings, model invocations, logger calls and
    rendered page elements).  The two models, the clock and the logger are
    opaque collaborators: they are Section variables.

    Left out: [load_models] (the models are taken as loaded),
    [st.set_page_config], the digits of a formatted float, and the entries
    Streamlit keeps in [st.session_state] for the keyed feedback widgets,
    which the script never reads or writes through [st.session_state];
    the widgets' values are an input of each run. *)

From Stdlib Require Import ZArith Lia.
From Stdlib Require Import Floats.PrimFloat.
From stdpp Require Import base option list gmap strings pretty.

Open Scope string_scope.
Open Scope list_scope.
Open Scope Z_scope.

(** ** Python values and exceptions *)

(** The values the script stores under its own keys of [st.session_state]:
    [None], [True]/[False], floats and strings. *)
Inductive pyval : Type :=
| VNone
| VBool (b : bool)
| VFloat (x : float)
| VStr (s : string).

(** Python truth value, as used by [if v:] and [not v]. *)
Definition truthy (v : pyval) : bool :=
  match v with
  | VNone => false
  | VBool b => b
  | VFloat x => negb (PrimFloat.eqb x 0%float)
  | VStr s => negb (String.eqb s "")
  end.

Inductive exn : Type :=
| KeyError (key : string)
| IndexError
| TypeError
| ValueError
| Raised (what : string).   (* raised inside a collaborator *)

(** ** Data frames *)

Inductive cell : Type :=
| CInt (n : Z)
| CStr (s : string).

(** A data frame is its columns in order, each with its name and cells. *)
Definition DataFrame : Type := list (string * list cell).

Fixpoint df_column (name : string) (df : DataFrame) : option (list cell) :=
  match df with
  | [] => None
  | (c, cells) :: rest =>
      if String.eqb c name then Some cells else df_column name rest
  end.

(** [df[[c1, ..., cn]]]: the named columns, in the order asked for;
    [KeyError] when one is missing. *)
Fixpoint df_select (cols : list string) (df : DataFrame) : exn + DataFrame :=
  match cols with
  | [] => inr []
  | c :: cs =>
      match df_column c df with
      | None => inl (KeyError c)
      | Some cells =>
          match df_select cs df with
          | inl e => inl e
          | inr out => inr ((c, cells) :: out)
          end
      end
  end.

(** ** Widgets *)

(** [st.slider(label, min_value=, max_value=, value=)]. *)
Record Slider : Type := mkSlider {
  min_value : Z;
  max_value : Z;
  value : Z
}.

(** The values the slider control can return. *)
Definition slider_accepts (sl : Slider) (v : Z) : bool :=
  (min_value sl <=? v) && (v <=? max_value sl).

Definition slider_default (sl : Slider) : Z := value sl.

(** [st.selectbox(label, options)]: a closed choice, first option preselected. *)
Definition Selectbox : Type := list string.

Definition selectbox_accepts (sb : Selectbox) (v : string) : bool :=
  existsb (String.eqb v) sb.

Definition selectbox_default (sb : Selectbox) : option string := head sb.

Definition StartHour_slider : Slider := mkSlider 0 23 8.
Definition TurnAroundTime_slider : Slider := mkSlider 0 120 15.
Definition DisplayValue_options : Selectbox :=
  ["OR 1"; "OR 2"; "OR 3"; "OR 4"; "OR 5"; "OR 6"; "OR 7"; "OR 8";
   "OR 9"; "OR 10"; "OR 11"; "OR 12"; "Endo 1"; "Endo 2"; "Endo 3"; "Endo 4"].
Definition ProposedProcedure_options : Selectbox :=
  ["COLOSCP - COLONOSCOPY;"; "GASTSCP - GASTROSCOPY;";
   "GASTCOL - GASTROSCOPY & COLONOSCOPY;";
   "VIDEO LAPAROSCOPIC CHOLECYSTECTOMY;"].
Definition feedback_score_slider : Slider := mkSlider 1 5 4.
Definition feedback_score_v2_slider : Slider := mkSlider 1 5 4.

(** What the controls return in one run of the script. *)
Record Widgets : Type := mkWidgets {
  StartHour : Z;
  TurnAroundTime : Z;
  DisplayValue : string;
  ProposedProcedure : string;
  run_prediction_clicked : bool;      (* st.button("Run Prediction") *)
  feedback_score : Z;
  feedback_text : string;
  feedback_score_v2 : Z;
  feedback_text_v2 : string;
  submit_feedback_clicked : bool      (* st.button("Submit Feedback") *)
}.

(** The values the controls show before the user touches them. *)
Definition default_widgets : option Widgets :=
  dv ← selectbox_default DisplayValue_options;
  pp ← selectbox_default ProposedProcedure_options;
  Some (mkWidgets (slider_default StartHour_slider)
                  (slider_default TurnAroundTime_slider) dv pp false
                  (slider_default feedback_score_slider) ""
                  (slider_default feedback_score_v2_slider) "" false).

(** The values the controls can return at all. *)
Definition widgets_in_domain (wd : Widgets) : bool :=
  slider_accepts StartHour_slider (StartHour wd)
  && slider_accepts TurnAroundTime_slider (TurnAroundTime wd)
  && selectbox_accepts DisplayValue_options (DisplayValue wd)
  && selectbox_accepts ProposedProcedure_options (ProposedProcedure wd)
  && slider_accepts feedback_score_slider (feedback_score wd)
  && slider_accepts feedback_score_v2_slider (feedback_score_v2 wd).

(** The canonical one-row frame [input_df]. *)
Definition input_df (wd : Widgets) : DataFrame :=
  [("StartHour", [CInt (StartHour wd)]);
   ("TurnAroundTime", [CInt (TurnAroundTime wd)]);
   ("DisplayValue", [CStr (DisplayValue wd)]);
   ("ProposedProcedure", [CStr (ProposedProcedure wd)])].

(** The f-string stored under ["input_summary"]. *)
Definition input_summary_of (wd : Widgets) : string :=
  "StartHour=" +:+ pretty (StartHour wd)
  +:+ ", TurnAroundTime=" +:+ pretty (TurnAroundTime wd)
  +:+ ", DisplayValue=" +:+ DisplayValue wd
  +:+ ", ProposedProcedure=" +:+ ProposedProcedure wd.

(** [(time.time() - start_time) * 1000.0] on binary64 floats. *)
Definition latency_of (start_time end_time : float) : float :=
  PrimFloat.mul (PrimFloat.sub end_time start_time) 1000%float.

(** ** The world of one session *)

(** The keyword arguments of one [log_prediction] call. *)
Record LogArgs : Type := mkLogArgs {
  model_version : string;
  model_type : string;
  input_summary : pyval;
  prediction : pyval;
  latency_ms : pyval;
  arg_feedback_score : Z;
  arg_feedback_text : string
}.

(** One row of the monitoring log: the arguments of the call that wrote
    it and the timestamp the logger assigned. *)
Record LogRecord : Type := mkLogRecord {
  timestamp : float;
  logged : LogArgs
}.

Inductive model_id : Type := OldModel | NewModel.

(** Page elements, in the order rendered.  The digits of a formatted
    float are not modelled: [Formatted pre x post] stands for the text
    [pre], the float [x] under its format specifier, then [post]. *)
Inductive element : Type :=
| Title (s : string)
| SidebarHeader (s : string)
| Subheader (s : string)
| WriteFrame (df : DataFrame)
| Formatted (pre : string) (x : float) (post : string)
| Info (s : string)
| Warning (s : string)
| Success (s : string).

Inductive event : Type :=
| EvTime (t : float)
| EvPredict (m : model_id) (features : DataFrame)
| EvLog (args : LogArgs)
| EvUi (el : element).

Record World : Type := mkWorld {
  session_state : gmap string pyval;
  clock_reads : nat;              (* time.time() calls made so far *)
  log_store : list LogRecord;     (* the monitoring log *)
  trace : list event              (* oldest first *)
}.

Definition fresh_world : World := mkWorld ∅ 0 [] [].

Definition with_session (f : gmap string pyval → gmap string pyval)
    (w : World) : World :=
  mkWorld (f (session_state w)) (clock_reads w) (log_store w) (trace w).

Definition with_event (e : event) (w : World) : World :=
  mkWorld (session_state w) (clock_reads w) (log_store w) (trace w ++ [e]).

Definition with_tick (w : World) : World :=
  mkWorld (session_state w) (S (clock_reads w)) (log_store w) (trace w).

Definition with_store (st : list LogRecord) (w : World) : World :=
  mkWorld (session_state w) (clock_reads w) st (trace w).

(** ** Computations: state that survives a raised exception *)

Definition M (A : Type) : Type := World → World * (exn + A).

Definition raise {A} (e : exn) : M A := λ w, (w, inl e).

Definition M_bind {A B} (k : A → M B) (m : M A) : M B :=
  λ w, match m w with
       | (w', inl e) => (w', inl e)
       | (w', inr a) => k a w'
       end.

#[global] Instance M_ret : MRet M := λ A a w, (w, inr a).
#[global] Instance M_mbind : MBind M := @M_bind.

Definition lift {A} (r : exn + A) : M A := λ w, (w, r).

(** [k in st.session_state] *)
Definition contains (k : string) : M bool :=
  λ w, (w, inr (bool_decide (is_Some (session_state w !! k)))).

(** [st.session_state[k]] *)
Definition getitem (k : string) : M pyval :=
  λ w, match session_state w !! k with
       | Some v => (w, inr v)
       | None => (w, inl (KeyError k))
       end.

(** [st.session_state[k] = v] *)
Definition setitem (k : string) (v : pyval) : M unit :=
  λ w, (with_session (<[k := v]>) w, inr tt).

Definition render (el : element) : M unit :=
  λ w, (with_event (EvUi el) w, inr tt).

(** [xs[0]] *)
Definition index0 (xs : list float) : M float :=
  match xs with
  | [] => raise IndexError
  | x :: _ => mret x
  end.

(** [f"{v:,.2f}"] and [f"{v:.1f}"]: defined on numbers only. *)
Definition format_f (v : pyval) : M float :=
  match v with
  | VFloat x => mret x
  | VBool b => mret (if b then 1%float else 0%float)
  | VNone => raise TypeError
  | VStr _ => raise ValueError
  end.

Definition logs_of (tr : list event) : list LogArgs :=
  omap (λ e, match e with EvLog a => Some a | _ => None end) tr.

Definition warnings_of (tr : list event) : list string :=
  omap (λ e, match e with EvUi (Warning s) => Some s | _ => None end) tr.

Definition successes_of (tr : list event) : list string :=
  omap (λ e, match e with EvUi (Success s) => Some s | _ => None end) tr.

Definition is_ready (w : World) : bool :=
  match session_state w !! "pred_ready" with
  | Some v => truthy v
  | None => false
  end.

Section Script.

(** [old_model.predict] and [new_model.predict]: the array of scores,
    or the exception raised. *)
Variable old_model new_model : DataFrame → exn + list float.

(** [time.time()], by the number of readings made before. *)
Variable time_time : nat → float.

(** [log_utils.log_prediction]: the log after the call, and the
    exception when it raised. *)
Variable log_prediction : LogArgs → list LogRecord → list LogRecord * option exn.

Definition model_predict (m : model_id) : DataFrame → exn + list float :=
  match m with OldModel => old_model | NewModel => new_model end.

Definition now : M float :=
  λ w, let t := time_time (clock_reads w) in
       (with_event (EvTime t) (with_tick w), inr t).

Definition predict (m : model_id) (features : DataFrame) : M (list float) :=
  λ w, (with_event (EvPredict m features) w, model_predict m features).

Definition call_log_prediction (args : LogArgs) : M unit :=
  λ w, let w1 := with_event (EvLog args) w in
       match log_prediction args (log_store w1) with
       | (st, Some e) => (with_store st w1, inl e)
       | (st, None) => (with_store st w1, inr tt)
       end.

(** [if k not in st.session_state: st.session_state[k] = v] *)
Definition init_key (k : string) (v : pyval) : M unit :=
  present ← contains k;
  if negb present then setitem k v else mret tt.

(** Lines 21-30. *)
Definition init_session : M unit :=
  init_key "pred_ready" (VBool false);;
  init_key "old_pred" VNone;;
  init_key "new_pred" VNone;;
  init_key "latency_ms" VNone;;
  init_key "input_summary" (VStr "").

(** Lines 33-49: the header and the echo of the input frame. *)
Definition input_section (wd : Widgets) : M unit :=
  render (SidebarHeader "Input Parameters");;
  render (Subheader "Input Summary");;
  render (WriteFrame (input_df wd)).

(** Lines 53-70: the body of [if st.button("Run Prediction")]. *)
Definition run_prediction (wd : Widgets) : M unit :=
  start_time ← now;
  input_v1 ← lift (df_select ["DisplayValue"; "ProposedProcedure"] (input_df wd));
  scores_v1 ← predict OldModel input_v1;
  old_pred ← index0 scores_v1;
  input_v2 ← lift (df_select ["StartHour"; "TurnAroundTime"; "DisplayValue";
                               "ProposedProcedure"] (input_df wd));
  scores_v2 ← predict NewModel input_v2;
  new_pred ← index0 scores_v2;
  end_time ← now;
  let latency_ms := latency_of start_time end_time in
  setitem "old_pred" (VFloat old_pred);;
  setitem "new_pred" (VFloat new_pred);;
  setitem "latency_ms" (VFloat latency_ms);;
  setitem "input_summary" (VStr (input_summary_of wd));;
  setitem "pred_ready" (VBool true).

(** Lines 73-79. *)
Definition show_predictions : M unit :=
  ready ← getitem "pred_ready";
  if truthy ready then
    render (Subheader "Predictions");;
    v ← getitem "old_pred";
    x ← format_f v;
    render (Formatted "Old Model (v1 - ProposedProcedure + DisplayValue only): **" x "**");;
    v ← getitem "new_pred";
    x ← format_f v;
    render (Formatted "New Model (v2 - ProposedProcedure + DisplayValue + StartHour + TurnAroundTime): **" x "**");;
    v ← getitem "latency_ms";
    x ← format_f v;
    render (Formatted "Latency: " x " ms")
  else
    render (Info "Click **Run Prediction** to see model outputs before giving feedback.").

(** Lines 93-120: the body of [if st.button("Submit Feedback")]. *)
Definition submit_feedback (wd : Widgets) : M unit :=
  ready ← getitem "pred_ready";
  if negb (truthy ready) then
    render (Warning "Please run the prediction first, then submit your feedback.")
  else
    summary ← getitem "input_summary";
    pred ← getitem "old_pred";
    latency ← getitem "latency_ms";
    call_log_prediction
      (mkLogArgs "v1_old" "baseline" summary pred latency
                 (feedback_score wd) (feedback_text wd));;
    summary ← getitem "input_summary";
    pred ← getitem "new_pred";
    latency ← getitem "latency_ms";
    call_log_prediction
      (mkLogArgs "v2_new" "improved" summary pred latency
                 (feedback_score_v2 wd) (feedback_text_v2 wd));;
    render (Success ("Feedback and predictions have been saved to monitoring_logs.csv. "
                     +:+ "You can now view them in the monitoring dashboard.")).

(** One run of the script, top to bottom. *)
Definition script_run (wd : Widgets) : M unit :=
  render (Title "Surgical Prediction App with Live Monitoring");;
  init_session;;
  input_section wd;;
  (if run_prediction_clicked wd then run_prediction wd else mret tt);;
  show_predictions;;
  render (Subheader "Your Feedback on These Predictions");;
  (if submit_feedback_clicked wd then submit_feedback wd else mret tt).

End Script.

(** A session is a sequence of runs of the script over one world: what a
    run leaves in the world is what the next one finds, also when the run
    ended in an exception.  The models are loaded once and the clock is read
    by count; the logger writes to storage that may come and go, so every
    run is given the controls' values and the logger as it behaves then. *)
Fixpoint session_runs
    (old_model new_model : DataFrame → exn + list float)
    (time_time : nat → float)
    (runs : list (Widgets
                  * (LogArgs → list LogRecord → list LogRecord * option exn)))
    (w : World) : World :=
  match runs with
  | [] => w
  | (wd, log_prediction) :: rest =>
      session_runs old_model new_model time_time rest
        (script_run old_model new_model time_time log_prediction wd w).1
  end.

(** Modelled from the spec: [log_utils.log_prediction] is imported by the
    script but its module is not among the sources.  Spec 4.5 and 5 give its
    contract: [append(...) -> success|failure], each append atomic (no
    partial record), the timestamp assigned by the logger.  [available]
    says whether the store can be written, [stamp] is the logger's clock. *)
Definition spec_log_prediction
    (available : list LogRecord → bool) (stamp : nat → float)
    (args : LogArgs) (st : list LogRecord) : list LogRecord * option exn :=
  if available st
  then (st ++ [mkLogRecord (stamp (List.length st)) args], None)
  else (st, Some (Raised "log_prediction")).

(** A logger whose failed call leaves the log as it was. *)
Definition atomic_logger
    (log_prediction : LogArgs → list LogRecord → list LogRecord * option exn)
    : Prop :=
  ∀ args st st' e, log_prediction args st = (st', Some e) → st' = st.

(** ** Vocabulary of the properties *)

(** [always R m]: however [m] ends, the world it leaves is [R]-related to
    the world it started in. *)
Definition always {A} (R : relation World) (m : M A) : Prop :=
  ∀ w, R w (m w).1.

(** Nothing the script owns changed: session, logger calls, log. *)
Definition frame : relation World :=
  λ w w', session_state w' = session_state w
          ∧ logs_of (trace w') = logs_of (trace w)
          ∧ log_store w' = log_store w.

Definition same_session : relation World :=
  λ w w', session_state w' = session_state w.

Definition same_ready : relation World :=
  λ w w', is_ready w' = is_ready w.

(** What [init_key] does to the session. *)
Definition init_one (k : string) (v : pyval) (s : gmap string pyval)
    : gmap string pyval :=
  if bool_decide (is_Some (s !! k)) then s else <[k := v]> s.

(** What [init_session] does to the session. *)
Definition init_map (s : gmap string pyval) : gmap string pyval :=
  init_one "input_summary" (VStr "")
    (init_one "latency_ms" VNone
       (init_one "new_pred" VNone
          (init_one "old_pred" VNone
             (init_one "pred_ready" (VBool false) s)))).

(** The five assignments of lines 66-70, in their order. *)
Definition commit (wd : Widgets) (old_pred new_pred latency : float)
    (s : gmap string pyval) : gmap string pyval :=
  <["pred_ready" := VBool true]>
    (<["input_summary" := VStr (input_summary_of wd)]>
       (<["latency_ms" := VFloat latency]>
          (<["new_pred" := VFloat new_pred]>
             (<["old_pred" := VFloat old_pred]> s)))).

(** The frames handed to the two models. *)
Definition features_v1 (wd : Widgets) : DataFrame :=
  [("DisplayValue", [CStr (DisplayValue wd)]);
   ("ProposedProcedure", [CStr (ProposedProcedure wd)])].

Definition features_v2 (wd : Widgets) : DataFrame :=
  [("StartHour", [CInt (StartHour wd)]);
   ("TurnAroundTime", [CInt (TurnAroundTime wd)]);
   ("DisplayValue", [CStr (DisplayValue wd)]);
   ("ProposedProcedure", [CStr (ProposedProcedure wd)])].

Definition predicts_of (tr : list event) : list (model_id * DataFrame) :=
  omap (λ e, match e with EvPredict m f => Some (m, f) | _ => None end) tr.

(** All five keys of the workflow state are set. *)
Definition initialised (s : gmap string pyval) : Prop :=
  is_Some (s !! "pred_ready") ∧ is_Some (s !! "old_pred")
  ∧ is_Some (s !! "new_pred") ∧ is_Some (s !! "latency_ms")
  ∧ is_Some (s !! "input_summary").

(** A ready session holds two float predictions, a float latency and a
    summary string. *)
Definition pinned (s : gmap string pyval) : Prop :=
  ∃ old_pred new_pred latency summary,
    s !! "old_pred" = Some (VFloat old_pred)
    ∧ s !! "new_pred" = Some (VFloat new_pred)
    ∧ s !! "latency_ms" = Some (VFloat latency)
    ∧ s !! "input_summary" = Some (VStr summary).

(** A logger call that refers to a prediction that exists. *)
Definition refers_to_prediction (a : LogArgs) : Prop :=
  ∃ x latency summary,
    prediction a = VFloat x ∧ latency_ms a = VFloat latency
    ∧ input_summary a = VStr summary.

Definition session_inv (w : World) : Prop :=
  (is_ready w = true → pinned (session_state w))
  ∧ Forall refers_to_prediction (logs_of (trace w)).

(** The two calls of lines 97-115. *)
Definition log_args_v1 (wd : Widgets) (summary pred latency : pyval) : LogArgs :=
  mkLogArgs "v1_old" "baseline" summary pred latency
            (feedback_score wd) (feedback_text wd).

Definition log_args_v2 (wd : Widgets) (summary pred latency : pyval) : LogArgs :=
  mkLogArgs "v2_new" "improved" summary pred latency
            (feedback_score_v2 wd) (feedback_text_v2 wd).

Definition warning_text : string :=
  "Please run the prediction first, then submit your feedback.".

Definition success_text : string :=
  "Feedback and predictions have been saved to monitoring_logs.csv. You can now view them in the monitoring dashboard.".

(** [keeps P]: a property of the world that, once true, stays true. *)
Definition keeps (P : World → Prop) : relation World := λ w w', P w → P w'.

Definition ready (w : World) : Prop := is_ready w = true.

(** The world in which the two button handlers start: the page title, the
    session keys initialised, the input section rendered. *)
Definition entry_world (wd : Widgets) (w : World) : World :=
  mkWorld (init_map (session_state w)) (clock_reads w) (log_store w)
    (trace w ++ [EvUi (Title "Surgical Prediction App with Live Monitoring");
                 EvUi (SidebarHeader "Input Parameters");
                 EvUi (Subheader "Input Summary");
                 EvUi (WriteFrame (input_df wd))]).

(** The script from line 52 on. *)
Definition script_buttons
    (old_model new_model : DataFrame → exn + list float)
    (time_time : nat → float)
    (log_prediction : LogArgs → list LogRecord → list LogRecord * option exn)
    (wd : Widgets) : M unit :=
  (if run_prediction_clicked wd
   then run_prediction old_model new_model time_time wd else mret ());;
  show_predictions;;
  render (Subheader "Your Feedback on These Predictions");;
  (if submit_feedback_clicked wd
   then submit_feedback log_prediction wd else mret ()).

(** ** Loading the models (lines 12-18) *)

(** A loaded model, by its [predict]. *)
Definition Model : Type := DataFrame → exn + list float.

(** The process the sessions run in: what [st.cache_resource] holds for
    [load_models], and the files [joblib.load] was called on, oldest
    first. *)
Record Process : Type := mkProcess {
  cached_models : option (Model * Model);
  joblib_loads : list string
}.

Definition fresh_process : Process := mkProcess None [].

Section Loading.

(** [joblib.load]: the model in the file, or the exception raised. *)
Variable joblib_load : string → exn + Model.

Definition call_joblib_load (file : string)
    : Process → Process * (exn + Model) :=
  λ p, (mkProcess (cached_models p) (joblib_loads p ++ [file]), joblib_load file).

(** The body of [load_models]. *)
Definition load_models : Process → Process * (exn + Model * Model) :=
  λ p, match call_joblib_load "baseline_model_v1.pkl" p with
       | (p1, inl e) => (p1, inl e)
       | (p1, inr old_model) =>
           match call_joblib_load "improved_model_v2.pkl" p1 with
           | (p2, inl e) => (p2, inl e)
           | (p2, inr new_model) => (p2, inr (old_model, new_model))
           end
       end.

(** [@st.cache_resource]: the body runs when nothing is held, and what it
    returns is held from then on; an exception leaves nothing held. *)
Definition cache_resource
    (body : Process → Process * (exn + Model * Model))
    : Process → Process * (exn + Model * Model) :=
  λ p, match cached_models p with
       | Some models => (p, inr models)
       | None =>
           match body p with
           | (p', inl e) => (p', inl e)
           | (p', inr models) =>
               (mkProcess (Some models) (joblib_loads p'), inr models)
           end
       end.

Variable time_time : nat → float.
Variable log_prediction : LogArgs → list LogRecord → list LogRecord * option exn.

(** One run of the whole file: the title (line 10), the models (line 18),
    and with them the rest of the script. *)
Definition app_run (wd : Widgets)
    : Process * World → (Process * World) * (exn + unit) :=
  λ '(p, w),
    match cache_resource load_models p with
    | (p', inl e) =>
        ((p', (render (Title "Surgical Prediction App with Live Monitoring") w).1),
         inl e)
    | (p', inr (old_model, new_model)) =>
        let '(w', r) :=
          script_run old_model new_model time_time log_prediction wd w in
        ((p', w'), r)
    end.

End Loading.

(** Runs of the whole file, one after the other, in one process. *)
Fixpoint app_runs
    (joblib_load : string → exn + Model) (time_time : nat → float)
    (runs : list (Widgets
                  * (LogArgs → list LogRecord → list LogRecord * option exn)))
    (pw : Process * World) : Process * World :=
  match runs with
  | [] => pw
  | (wd, log_prediction) :: rest =>
      app_runs joblib_load time_time rest
        (app_run joblib_load time_time log_prediction wd pw).1
  end.

(** ** More vocabulary *)

(** The values lines 21-30 give to the keys they find missing. *)
Definition session_defaults : list (string * pyval) :=
  [("pred_ready", VBool false); ("old_pred", VNone); ("new_pred", VNone);
   ("latency_ms", VNone); ("input_summary", VStr "")].

Definition workflow_keys : list string := session_defaults.*1.

Definition elements_of (tr : list event) : list element :=
  omap (λ e, match e with EvUi el => Some el | _ => None end) tr.

(** What [show_predictions] renders for a ready session. *)
Definition predictions_shown (old_pred new_pred latency : float) : list element :=
  [Subheader "Predictions";
   Formatted "Old Model (v1 - ProposedProcedure + DisplayValue only): **" old_pred "**";
   Formatted "New Model (v2 - ProposedProcedure + DisplayValue + StartHour + TurnAroundTime): **" new_pred "**";
   Formatted "Latency: " latency " ms"].

(** The character [c] does not occur in [s]. *)
Fixpoint lacks (c : Ascii.ascii) (s : string) : bool :=
  match s with
  | EmptyString => true
  | String a rest => negb (Ascii.eqb a c) && lacks c rest
  end.

Definition comma : Ascii.ascii :=
  Eval cbv in match "," with String c _ => c | EmptyString => Ascii.zero end.

(** Collaborators for the examples of loading. *)
Definition example_files (file : string) : exn + Model :=
  if String.eqb file "baseline_model_v1.pkl" then inr (λ _, inr [30%float])
  else if String.eqb file "improved_model_v2.pkl" then inr (λ _, inr [41.5%float])
  else inl (Raised "FileNotFoundError").

Definition missing_improved (file : string) : exn + Model :=
  if String.eqb file "baseline_model_v1.pkl" then inr (λ _, inr [30%float])
  else inl (Raised "FileNotFoundError").

(** More inputs and collaborators for examples: a run with no button
    clicked, feedback submitted after the controls were changed, and a
    logger whose storage takes one record only. *)
Definition example_rerender : Widgets :=
  mkWidgets 8 15 "OR 1" "COLOSCP - COLONOSCOPY;" false 2 "" 4 "" false.

Definition changed_feedback : Widgets :=
  mkWidgets 23 120 "Endo 4" "GASTSCP - GASTROSCOPY;" false 1 "bad" 2 "" true.

Definition one_record_logger
    : LogArgs → list LogRecord → list LogRecord * option exn :=
  λ args st,
    match st with
    | [] => ([mkLogRecord 7%float args], None)
    | _ => (st, Some (Raised "log_prediction"))
    end.

(** ** Concrete collaborators and inputs for examples *)

Definition example_widgets : Widgets :=
  mkWidgets 8 15 "OR 1" "COLOSCP - COLONOSCOPY;" true 5 "great" 3 "meh" false.

Definition example_feedback : Widgets :=
  mkWidgets 8 15 "OR 1" "COLOSCP - COLONOSCOPY;" false 5 "great" 3 "meh" true.

Definition const_model (x : float) : DataFrame → exn + list float :=
  λ _, inr [x].

Definition broken_model : DataFrame → exn + list float :=
  λ _, inl (Raised "predict").

Definition example_clock (n : nat) : float :=
  match n with
  | O => 100%float
  | _ => 100.25%float
  end.

Definition good_logger := spec_log_prediction (λ _, true) (λ _, 7%float).
Definition full_disk_logger := spec_log_prediction (λ _, false) (λ _, 7%float).

(** The session of a world in which a prediction has been committed. *)
Definition example_ready_session : gmap string pyval :=
  <["pred_ready" := VBool true]>
    (<["input_summary" := VStr "StartHour=8, TurnAroundTime=15, DisplayValue=OR 1, ProposedProcedure=COLOSCP - COLONOSCOPY;"]>
       (<["latency_ms" := VFloat 250%float]>
          (<["new_pred" := VFloat 41.5%float]>
             (<["old_pred" := VFloat 30%float]> ∅)))).

Definition example_ready_world : World := mkWorld example_ready_session 2 [] [].

Example default_widgets_value :
  default_widgets
  = Some (mkWidgets 8 15 "OR 1" "COLOSCP - COLONOSCOPY;" false 4 "" 4 "" false).
Proof. reflexivity. Qed.

Example example_run_commits :
  session_state (script_run (const_model 30) (const_model 41.5) example_clock
                            good_logger example_widgets fresh_world).1
  = example_ready_session.
Proof. vm_compute. reflexivity. Qed.

Example example_submit_logs :
  map logged (log_store (submit_feedback good_logger example_feedback
                                         example_ready_world).1)
  = [mkLogArgs "v1_old" "baseline"
       (VStr "StartHour=8, TurnAroundTime=15, DisplayValue=OR 1, ProposedProcedure=COLOSCP - COLONOSCOPY;")
       (VFloat 30) (VFloat 250) 5 "great";
     mkLogArgs "v2_new" "improved"
       (VStr "StartHour=8, TurnAroundTime=15, DisplayValue=OR 1, ProposedProcedure=COLOSCP - COLONOSCOPY;")
       (VFloat 41.5) (VFloat 250) 3 "meh"].
Proof. vm_compute. reflexivity. Qed.

(** The scenario of the spec: predict on the example input, then submit
    the scores (5, 3) with the comments "great" and "meh". *)
Example example_session_logs :
  map logged
      (log_store (session_runs (const_model 30) (const_model 41.5) example_clock
                    [(example_widgets, good_logger); (example_feedback, good_logger)]
                    fresh_world))
  = [mkLogArgs "v1_old" "baseline"
       (VStr "StartHour=8, TurnAroundTime=15, DisplayValue=OR 1, ProposedProcedure=COLOSCP - COLONOSCOPY;")
       (VFloat 30) (VFloat 250) 5 "great";
     mkLogArgs "v2_new" "improved"
       (VStr "StartHour=8, TurnAroundTime=15, DisplayValue=OR 1, ProposedProcedure=COLOSCP - COLONOSCOPY;")
       (VFloat 41.5) (VFloat 250) 3 "meh"].
Proof. vm_compute. reflexivity. Qed.

(** ** Reasoning about computations *)

#[local] Instance frame_preorder : PreOrder frame.
Proof.
  split.
  - intros w. by repeat split.
  - intros w1 w2 w3 (?&?&?) (?&?&?). repeat split; congruence.
Qed.

#[local] Instance same_session_preorder : PreOrder same_session.
Proof. split; unfold same_session; [done | congruence]. Qed.

#[local] Instance same_ready_preorder : PreOrder same_ready.
Proof. split; unfold same_ready; [done | congruence]. Qed.

Lemma frame_same_session w w' : frame w w' → same_session w w'.
Proof. by intros (?&_). Qed.

Lemma same_session_same_ready w w' : same_session w w' → same_ready w w'.
Proof. unfold same_session, same_ready, is_ready. by intros ->. Qed.

Lemma always_weaken {A} (R R' : relation World) (m : M A) :
  (∀ w w', R w w' → R' w w') → always R m → always R' m.
Proof. intros HR Hm w. apply HR, Hm. Qed.

Lemma always_bind {A B} (R : relation World) `{!PreOrder R}
    (m : M A) (k : A → M B) :
  always R m → (∀ a, always R (k a)) → always R (m ≫= k).
Proof.
  intros Hm Hk w. unfold mbind, M_mbind, M_bind.
  specialize (Hm w). destruct (m w) as [w' [e|a]]; simpl in *; [done|].
  etrans; [exact Hm | apply Hk].
Qed.

Lemma always_mret {A} (R : relation World) `{!PreOrder R} (a : A) :
  always R (mret a).
Proof. intros w. reflexivity. Qed.

Lemma always_if {A} (R : relation World) (b : bool) (m1 m2 : M A) :
  always R m1 → always R m2 → always R (if b then m1 else m2).
Proof. by destruct b. Qed.

Lemma logs_of_snoc tr e :
  logs_of (tr ++ [e])
  = logs_of tr ++ match e with EvLog a => [a] | _ => [] end.
Proof.
  unfold logs_of. rewrite omap_app. f_equal. by destruct e.
Qed.

Lemma warnings_of_snoc tr e :
  warnings_of (tr ++ [e])
  = warnings_of tr ++ match e with EvUi (Warning s) => [s] | _ => [] end.
Proof.
  unfold warnings_of. rewrite omap_app. f_equal. by destruct e as [| | |[]].
Qed.

Lemma successes_of_snoc tr e :
  successes_of (tr ++ [e])
  = successes_of tr ++ match e with EvUi (Success s) => [s] | _ => [] end.
Proof.
  unfold successes_of. rewrite omap_app. f_equal. by destruct e as [| | |[]].
Qed.

Lemma frame_render el : always frame (render el).
Proof.
  intros w. repeat split. simpl. rewrite logs_of_snoc. apply app_nil_r.
Qed.

Lemma frame_getitem k : always frame (getitem k).
Proof. intros w. unfold getitem. by destruct (_ !! _). Qed.

Lemma frame_format_f v : always frame (format_f v).
Proof. destruct v; intros w; reflexivity. Qed.

Lemma lookup_init_one_eq k v s : init_one k v s !! k = Some (default v (s !! k)).
Proof.
  unfold init_one. case_bool_decide as Hk.
  - by destruct Hk as [x ->].
  - rewrite lookup_insert_eq. apply eq_None_not_Some in Hk. by rewrite Hk.
Qed.

Lemma lookup_init_one_ne k k' v s : k ≠ k' → init_one k v s !! k' = s !! k'.
Proof.
  intros Hne. unfold init_one. case_bool_decide; [done|].
  by rewrite lookup_insert_ne.
Qed.

Lemma init_one_present k v s : is_Some (s !! k) → init_one k v s = s.
Proof. intros Hk. unfold init_one. by rewrite bool_decide_eq_true_2. Qed.

Lemma init_map_initialised s : initialised (init_map s).
Proof.
  unfold initialised, init_map.
  repeat split;
    repeat (rewrite lookup_init_one_ne by done); rewrite lookup_init_one_eq; eauto.
Qed.

Lemma init_map_id s : initialised s → init_map s = s.
Proof.
  intros (?&?&?&?&?). unfold init_map.
  rewrite (init_one_present "pred_ready") by done.
  rewrite (init_one_present "old_pred") by done.
  rewrite (init_one_present "new_pred") by done.
  rewrite (init_one_present "latency_ms") by done.
  by rewrite (init_one_present "input_summary").
Qed.

Lemma init_map_pred_ready s :
  init_map s !! "pred_ready" = Some (default (VBool false) (s !! "pred_ready")).
Proof.
  unfold init_map. repeat (rewrite lookup_init_one_ne by done).
  apply lookup_init_one_eq.
Qed.

Lemma init_map_lookup_present k s v : s !! k = Some v → init_map s !! k = Some v.
Proof.
  intros Hk. unfold init_map.
  assert (∀ k' v' s', s' !! k = Some v → init_one k' v' s' !! k = Some v) as Hstep.
  { intros k' v' s' Hs'. destruct (decide (k' = k)) as [->|].
    - by rewrite lookup_init_one_eq, Hs'.
    - by rewrite lookup_init_one_ne. }
  by do 5 apply Hstep.
Qed.

Lemma bind_ok {A B} (m : M A) (k : A → M B) w w' a :
  m w = (w', inr a) → (m ≫= k) w = k a w'.
Proof. intros Hm. unfold mbind, M_mbind, M_bind. by rewrite Hm. Qed.

Lemma bind_err {A B} (m : M A) (k : A → M B) w w' e :
  m w = (w', inl e) → (m ≫= k) w = (w', inl e).
Proof. intros Hm. unfold mbind, M_mbind, M_bind. by rewrite Hm. Qed.

(** ** The blocks of the script *)

Section Properties.

Variable old_model new_model : DataFrame → exn + list float.
Variable time_time : nat → float.
Variable log_prediction : LogArgs → list LogRecord → list LogRecord * option exn.

#[local] Abbreviation call_log' := (call_log_prediction log_prediction).
#[local] Abbreviation run_prediction' := (run_prediction old_model new_model time_time).
#[local] Abbreviation submit_feedback' := (submit_feedback log_prediction).
#[local] Abbreviation script_run' :=
  (script_run old_model new_model time_time log_prediction).
#[local] Abbreviation script_buttons' :=
  (script_buttons old_model new_model time_time log_prediction).

Lemma same_session_call_log args : always same_session (call_log' args).
Proof.
  intros w. unfold call_log_prediction.
  by destruct (log_prediction _ _) as [st [e|]].
Qed.

Lemma init_key_eq k v w :
  init_key k v w = (with_session (init_one k v) w, inr ()).
Proof.
  destruct w as [s n st tr].
  unfold init_key, init_one, mbind, M_mbind, M_bind, contains, with_session.
  simpl. by case_bool_decide.
Qed.

Lemma init_session_eq w : init_session w = (with_session init_map w, inr ()).
Proof.
  unfold init_session.
  do 4 (erewrite bind_ok by apply init_key_eq).
  rewrite init_key_eq. by destruct w.
Qed.

Lemma frame_show_predictions : always frame show_predictions.
Proof.
  unfold show_predictions.
  apply always_bind; [apply _ | apply frame_getitem | intros ready].
  apply always_if; [|apply frame_render].
  repeat first
    [ apply frame_render | apply frame_getitem | apply frame_format_f
    | apply always_bind; [apply _ | | intros ?] ].
Qed.

Lemma df_select_v1 wd :
  df_select ["DisplayValue"; "ProposedProcedure"] (input_df wd) = inr (features_v1 wd).
Proof. reflexivity. Qed.

Lemma df_select_v2 wd :
  df_select ["StartHour"; "TurnAroundTime"; "DisplayValue"; "ProposedProcedure"]
            (input_df wd) = inr (features_v2 wd).
Proof. reflexivity. Qed.

Lemma run_prediction_ok wd w p1 r1 p2 r2 :
  old_model (features_v1 wd) = inr (p1 :: r1) →
  new_model (features_v2 wd) = inr (p2 :: r2) →
  run_prediction' wd w
  = (mkWorld
       (commit wd p1 p2
          (latency_of (time_time (clock_reads w)) (time_time (S (clock_reads w))))
          (session_state w))
       (S (S (clock_reads w)))
       (log_store w)
       (trace w ++ [EvTime (time_time (clock_reads w));
                    EvPredict OldModel (features_v1 wd);
                    EvPredict NewModel (features_v2 wd);
                    EvTime (time_time (S (clock_reads w)))]),
     inr ()).
Proof.
  intros H1 H2. unfold run_prediction.
  unfold mbind, M_mbind, M_bind, now, lift, predict, model_predict.
  rewrite df_select_v1, df_select_v2. simpl.
  rewrite H1. simpl. rewrite H2. simpl.
  unfold setitem, with_session, commit. simpl.
  rewrite <- !app_assoc. simpl. reflexivity.
Qed.

Lemma run_prediction_cases wd w :
  (∃ p1 r1 p2 r2,
      old_model (features_v1 wd) = inr (p1 :: r1)
      ∧ new_model (features_v2 wd) = inr (p2 :: r2))
  ∨ (∃ e, (run_prediction' wd w).2 = inl e
          ∧ frame w (run_prediction' wd w).1
          ∧ (old_model (features_v1 wd) = inl e
             ∨ (old_model (features_v1 wd) = inr [] ∧ e = IndexError)
             ∨ (∃ p1 r1, old_model (features_v1 wd) = inr (p1 :: r1)
                         ∧ (new_model (features_v2 wd) = inl e
                            ∨ (new_model (features_v2 wd) = inr [] ∧ e = IndexError))))).
Proof.
  destruct (old_model (features_v1 wd)) as [e1|[|p1 r1]] eqn:H1;
    [right; exists e1 | right; exists IndexError | ].
  3: destruct (new_model (features_v2 wd)) as [e2|[|p2 r2]] eqn:H2;
    [right; exists e2 | right; exists IndexError | left; by eauto 10 ].
  all: unfold run_prediction, mbind, M_mbind, M_bind, now, lift, predict, model_predict;
    rewrite df_select_v1, ?df_select_v2; simpl; rewrite H1; simpl; rewrite ?H2; simpl.
  all: split; [done|]; split; [|by eauto 10].
  all: repeat split; simpl; rewrite !logs_of_snoc; simpl; by rewrite !app_nil_r.
Qed.

Lemma run_prediction_err_frame wd w e :
  (run_prediction' wd w).2 = inl e → frame w (run_prediction' wd w).1.
Proof.
  intros He. destruct (run_prediction_cases wd w) as [(p1&r1&p2&r2&H1&H2)|(e'&_&Hf&_)];
    [|done].
  by rewrite (run_prediction_ok _ _ _ _ _ _ H1 H2) in He.
Qed.

Lemma run_prediction_logs wd w :
  logs_of (trace (run_prediction' wd w).1) = logs_of (trace w)
  ∧ log_store (run_prediction' wd w).1 = log_store w.
Proof.
  destruct (run_prediction_cases wd w) as [(p1&r1&p2&r2&H1&H2)|(e'&_&Hf&_)].
  - rewrite (run_prediction_ok _ _ _ _ _ _ H1 H2). simpl. split; [|done].
    unfold logs_of. rewrite omap_app. simpl. apply app_nil_r.
  - by destruct Hf as (_&?&?).
Qed.

Lemma submit_feedback_not_ready wd w v :
  session_state w !! "pred_ready" = Some v → truthy v = false →
  submit_feedback' wd w = (with_event (EvUi (Warning warning_text)) w, inr ()).
Proof.
  intros Hk Hv. unfold submit_feedback, mbind, M_mbind, M_bind, getitem.
  by rewrite Hk, Hv.
Qed.

Lemma submit_feedback_ready wd w v summary old_pred new_pred latency :
  session_state w !! "pred_ready" = Some v → truthy v = true →
  session_state w !! "input_summary" = Some summary →
  session_state w !! "old_pred" = Some old_pred →
  session_state w !! "new_pred" = Some new_pred →
  session_state w !! "latency_ms" = Some latency →
  submit_feedback' wd w
  = let a1 := log_args_v1 wd summary old_pred latency in
    let a2 := log_args_v2 wd summary new_pred latency in
    let w1 := with_event (EvLog a1) w in
    match log_prediction a1 (log_store w) with
    | (st1, Some e) => (with_store st1 w1, inl e)
    | (st1, None) =>
        let w2 := with_event (EvLog a2) (with_store st1 w1) in
        match log_prediction a2 st1 with
        | (st2, Some e) => (with_store st2 w2, inl e)
        | (st2, None) =>
            (with_event (EvUi (Success success_text)) (with_store st2 w2), inr ())
        end
    end.
Proof.
  intros Hk Hv H1 H2 H3 H4.
  unfold submit_feedback, mbind, M_mbind, M_bind, getitem, call_log_prediction.
  rewrite Hk, Hv. simpl. rewrite H1. simpl. rewrite H2. simpl. rewrite H4. simpl.
  destruct (log_prediction _ _) as [st1 [e|]]; [done|]. simpl.
  rewrite H1. simpl. rewrite H3. simpl. rewrite H4. simpl.
  by destruct (log_prediction _ _) as [st2 [e|]].
Qed.

Lemma same_session_submit_feedback wd : always same_session (submit_feedback' wd).
Proof.
  pose proof (λ k, always_weaken _ _ _ frame_same_session (frame_getitem k)) as Hget.
  pose proof (λ el, always_weaken _ _ _ frame_same_session (frame_render el)) as Hren.
  unfold submit_feedback.
  apply always_bind; [apply _ | apply Hget | intros ready].
  apply always_if; [apply Hren|].
  repeat first
    [ apply Hren | apply Hget | apply same_session_call_log
    | apply always_bind; [apply _ | | intros ?] ].
Qed.

#[local] Instance keeps_preorder P : PreOrder (keeps P).
Proof. split; unfold keeps; [by intros w | intros w1 w2 w3; tauto]. Qed.

Lemma same_ready_keeps_ready w w' : same_ready w w' → keeps ready w w'.
Proof. unfold same_ready, keeps, ready. by intros ->. Qed.

Lemma frame_same_ready w w' : frame w w' → same_ready w w'.
Proof. intros Hf. by apply same_session_same_ready, frame_same_session. Qed.

Lemma frame_keeps_inv w w' : frame w w' → keeps session_inv w w'.
Proof.
  intros (Hs&Hl&_) (Hp&Hlogs). unfold session_inv, is_ready.
  by rewrite Hs, Hl.
Qed.

Lemma pinned_init_map s : pinned s → pinned (init_map s).
Proof.
  intros (p1&p2&l&sm&?&?&?&?). exists p1, p2, l, sm.
  by repeat split; apply init_map_lookup_present.
Qed.

Lemma pinned_commit wd p1 p2 l s : pinned (commit wd p1 p2 l s).
Proof.
  exists p1, p2, l, (input_summary_of wd). unfold commit.
  repeat split; repeat (rewrite lookup_insert_ne by done); by rewrite lookup_insert_eq.
Qed.

Lemma pred_ready_commit wd p1 p2 l s :
  commit wd p1 p2 l s !! "pred_ready" = Some (VBool true).
Proof. unfold commit. by rewrite lookup_insert_eq. Qed.

Lemma script_run_entry wd w :
  script_run' wd w = script_buttons' wd (entry_world wd w).
Proof.
  unfold script_run.
  erewrite bind_ok by reflexivity.
  erewrite bind_ok by apply init_session_eq.
  unfold input_section.
  erewrite bind_ok.
  2:{ do 2 (erewrite bind_ok by reflexivity). reflexivity. }
  unfold script_buttons, entry_world. f_equal.
  unfold with_event, with_session. simpl. by rewrite <- !app_assoc.
Qed.

Lemma entry_world_initialised wd w : initialised (session_state (entry_world wd w)).
Proof. apply init_map_initialised. Qed.

Lemma entry_world_same_ready wd w : same_ready w (entry_world wd w).
Proof.
  unfold same_ready, is_ready. simpl. rewrite init_map_pred_ready.
  by destruct (_ !! _).
Qed.

Lemma entry_world_logs wd w :
  logs_of (trace (entry_world wd w)) = logs_of (trace w).
Proof. unfold logs_of. simpl. rewrite omap_app. apply app_nil_r. Qed.

Lemma entry_world_keeps_inv wd w : keeps session_inv w (entry_world wd w).
Proof.
  intros (Hp&Hl). split.
  - rewrite entry_world_same_ready. intros Hr. by apply pinned_init_map, Hp.
  - by rewrite entry_world_logs.
Qed.

Lemma keeps_ready_run_prediction wd : always (keeps ready) (run_prediction' wd).
Proof.
  intros w. destruct (run_prediction_cases wd w) as [(p1&r1&p2&r2&H1&H2)|(e&_&Hf&_)].
  - rewrite (run_prediction_ok _ _ _ _ _ _ H1 H2). intros _.
    unfold ready, is_ready. simpl. by rewrite pred_ready_commit.
  - by apply same_ready_keeps_ready, frame_same_ready.
Qed.

Lemma keeps_inv_run_prediction wd : always (keeps session_inv) (run_prediction' wd).
Proof.
  intros w. destruct (run_prediction_cases wd w) as [(p1&r1&p2&r2&H1&H2)|(e&_&Hf&_)].
  - pose proof (run_prediction_logs wd w) as [Hl _]. revert Hl.
    rewrite (run_prediction_ok _ _ _ _ _ _ H1 H2). simpl. intros Hl (_&Hlogs).
    split; simpl; [intros _; apply pinned_commit | by rewrite Hl].
  - by apply frame_keeps_inv.
Qed.

Lemma keeps_inv_submit_feedback wd : always (keeps session_inv) (submit_feedback' wd).
Proof.
  intros w Hinv. pose proof Hinv as (Hp&Hl).
  destruct (session_state w !! "pred_ready") as [v|] eqn:Hk.
  2:{ unfold submit_feedback, mbind, M_mbind, M_bind, getitem. by rewrite Hk. }
  destruct (truthy v) eqn:Hv.
  2:{ rewrite (submit_feedback_not_ready _ _ _ Hk Hv).
      eapply frame_keeps_inv; [|done]. apply (frame_render _ w). }
  destruct Hp as (p1&p2&l&sm&H1&H2&H3&H4).
  { unfold is_ready. by rewrite Hk. }
  rewrite (submit_feedback_ready _ _ _ _ _ _ _ Hk Hv H4 H1 H2 H3). simpl.
  assert (refers_to_prediction (log_args_v1 wd (VStr sm) (VFloat p1) (VFloat l)))
    as Ha1 by (by exists p1, l, sm).
  assert (refers_to_prediction (log_args_v2 wd (VStr sm) (VFloat p2) (VFloat l)))
    as Ha2 by (by exists p2, l, sm).
  assert (pinned (session_state w)) as Hpin by (by exists p1, p2, l, sm).
  destruct (log_prediction _ _) as [st1 [e|]].
  { split; [done|]. simpl. rewrite logs_of_snoc. apply Forall_app; split; auto. }
  destruct (log_prediction _ _) as [st2 [e|]].
  all: split; [done|]; simpl; rewrite !logs_of_snoc; simpl; rewrite ?app_nil_r;
    repeat (apply Forall_app; split; auto).
Qed.

Lemma script_buttons_always (R : relation World) `{!PreOrder R} wd :
  (∀ w w', frame w w' → R w w') →
  always R (run_prediction' wd) → always R (submit_feedback' wd) →
  always R (script_buttons' wd).
Proof.
  intros Hframe Hrun Hsub. unfold script_buttons.
  apply always_bind; [done | apply always_if; [done | by apply always_mret] | intros _].
  apply always_bind;
    [done | by apply (always_weaken frame), frame_show_predictions | intros _].
  apply always_bind;
    [done | by apply (always_weaken frame), frame_render | intros _].
  apply always_if; [done | by apply always_mret].
Qed.

Lemma script_run_keeps_ready wd : always (keeps ready) (script_run' wd).
Proof.
  intros w. rewrite script_run_entry. etrans.
  - apply same_ready_keeps_ready, (entry_world_same_ready wd).
  - apply script_buttons_always; [apply _ | | apply keeps_ready_run_prediction | ].
    + intros ???. by apply same_ready_keeps_ready, frame_same_ready.
    + apply (always_weaken same_session); [|apply same_session_submit_feedback].
      intros ???. by apply same_ready_keeps_ready, same_session_same_ready.
Qed.

Lemma script_run_keeps_inv wd : always (keeps session_inv) (script_run' wd).
Proof.
  intros w. rewrite script_run_entry. etrans.
  - apply entry_world_keeps_inv.
  - apply script_buttons_always;
      [apply _ | apply frame_keeps_inv | apply keeps_inv_run_prediction
      | apply keeps_inv_submit_feedback].
Qed.

Lemma fresh_world_inv : session_inv fresh_world.
Proof. split; [done | constructor]. Qed.

Lemma show_predictions_not_ready w v :
  session_state w !! "pred_ready" = Some v → truthy v = false →
  show_predictions w
  = (with_event (EvUi (Info "Click **Run Prediction** to see model outputs before giving feedback.")) w,
     inr ()).
Proof.
  intros Hk Hv. unfold show_predictions, mbind, M_mbind, M_bind, getitem.
  by rewrite Hk, Hv.
Qed.

Lemma entry_world_pred_ready wd w :
  ∃ v, session_state (entry_world wd w) !! "pred_ready" = Some v
       ∧ truthy v = is_ready w.
Proof.
  exists (default (VBool false) (session_state w !! "pred_ready")). split.
  - apply init_map_pred_ready.
  - unfold is_ready. by destruct (_ !! _).
Qed.

Lemma feedback_rejected_in_one_run :
  (∀ wd w v,
      session_state w !! "pred_ready" = Some v → truthy v = false →
      (submit_feedback' wd w).2 = inr ()
      ∧ logs_of (trace (submit_feedback' wd w).1) = logs_of (trace w)
      ∧ log_store (submit_feedback' wd w).1 = log_store w
      ∧ warnings_of (trace (submit_feedback' wd w).1)
        = warnings_of (trace w)
          ++ ["Please run the prediction first, then submit your feedback."]
      ∧ session_state (submit_feedback' wd w).1 = session_state w)
  ∧ (∀ wd w,
        is_ready w = false → run_prediction_clicked wd = false →
        submit_feedback_clicked wd = true →
        (script_run' wd w).2 = inr ()
        ∧ logs_of (trace (script_run' wd w).1) = logs_of (trace w)
        ∧ log_store (script_run' wd w).1 = log_store w
        ∧ warnings_of (trace (script_run' wd w).1)
          = warnings_of (trace w)
            ++ ["Please run the prediction first, then submit your feedback."]
        ∧ session_state (script_run' wd w).1 = init_map (session_state w)
        ∧ (initialised (session_state w) →
           session_state (script_run' wd w).1 = session_state w)).
Proof.
  split.
  - intros wd w v Hk Hv. rewrite (submit_feedback_not_ready _ _ _ Hk Hv). simpl.
    rewrite logs_of_snoc, warnings_of_snoc. simpl. by rewrite app_nil_r.
  - intros wd w Hr Hrun Hsub. rewrite script_run_entry.
    destruct (entry_world_pred_ready wd w) as (v&Hk&Hv). rewrite Hr in Hv.
    unfold script_buttons. rewrite Hrun, Hsub.
    erewrite bind_ok by reflexivity.
    erewrite bind_ok by (by apply (show_predictions_not_ready _ v)).
    erewrite bind_ok by reflexivity.
    rewrite (submit_feedback_not_ready _ _ v) by done. simpl.
    rewrite !logs_of_snoc, !warnings_of_snoc. simpl. rewrite !app_nil_r.
    repeat split.
    + unfold logs_of. rewrite omap_app. apply app_nil_r.
    + f_equal. unfold warnings_of. rewrite omap_app. apply app_nil_r.
    + intros Hi. by apply init_map_id.
Qed.

Lemma show_predictions_ready w v p1 p2 l :
  session_state w !! "pred_ready" = Some v → truthy v = true →
  session_state w !! "old_pred" = Some (VFloat p1) →
  session_state w !! "new_pred" = Some (VFloat p2) →
  session_state w !! "latency_ms" = Some (VFloat l) →
  (show_predictions w).2 = inr ().
Proof.
  intros Hk Hv H1 H2 H3. unfold show_predictions, mbind, M_mbind, M_bind, getitem.
  rewrite Hk, Hv. simpl. rewrite H1. simpl. rewrite H2. simpl. by rewrite H3.
Qed.

Lemma submit_feedback_two_calls wd w v summary old_pred new_pred latency :
  session_state w !! "pred_ready" = Some v → truthy v = true →
  session_state w !! "input_summary" = Some summary →
  session_state w !! "old_pred" = Some old_pred →
  session_state w !! "new_pred" = Some new_pred →
  session_state w !! "latency_ms" = Some latency →
  (log_prediction (log_args_v1 wd summary old_pred latency) (log_store w)).2 = None →
  logs_of (trace (submit_feedback' wd w).1)
  = logs_of (trace w)
    ++ [log_args_v1 wd summary old_pred latency;
        log_args_v2 wd summary new_pred latency].
Proof.
  intros Hk Hv H1 H2 H3 H4 Hfirst.
  rewrite (submit_feedback_ready _ _ _ _ _ _ _ Hk Hv H1 H2 H3 H4). simpl.
  destruct (log_prediction _ _) as [st1 [e|]]; [done|].
  destruct (log_prediction _ _) as [st2 [e|]]; simpl;
    rewrite !logs_of_snoc; simpl; rewrite ?app_nil_r; by rewrite <- app_assoc.
Qed.

Lemma script_run_two_calls wd w summary p1 p2 l :
  is_ready w = true →
  session_state w !! "input_summary" = Some summary →
  session_state w !! "old_pred" = Some (VFloat p1) →
  session_state w !! "new_pred" = Some (VFloat p2) →
  session_state w !! "latency_ms" = Some (VFloat l) →
  run_prediction_clicked wd = false → submit_feedback_clicked wd = true →
  (log_prediction (log_args_v1 wd summary (VFloat p1) (VFloat l)) (log_store w)).2
  = None →
  logs_of (trace (script_run' wd w).1)
  = logs_of (trace w)
    ++ [log_args_v1 wd summary (VFloat p1) (VFloat l);
        log_args_v2 wd summary (VFloat p2) (VFloat l)].
Proof.
  intros Hr H1 H2 H3 H4 Hrun Hsub Hfirst. rewrite script_run_entry.
  destruct (entry_world_pred_ready wd w) as (v&Hk&Hv). rewrite Hr in Hv.
  rewrite <- (entry_world_logs wd w).
  change (log_store w) with (log_store (entry_world wd w)) in Hfirst.
  assert (∀ k x, session_state w !! k = Some x →
                 session_state (entry_world wd w) !! k = Some x) as Hentry.
  { intros k x. apply init_map_lookup_present. }
  apply Hentry in H1, H2, H3, H4. clear Hentry.
  generalize dependent (entry_world wd w). intros w0 H1 H2 H3 H4 Hfirst Hk.
  unfold script_buttons. rewrite Hrun, Hsub.
  erewrite bind_ok by reflexivity.
  pose proof (show_predictions_ready w0 v p1 p2 l Hk Hv H2 H3 H4) as Hshow.
  pose proof (frame_show_predictions w0) as (Hs&Hl&Hst).
  destruct (show_predictions w0) as [w1 res] eqn:Heq. simpl in *. subst res.
  rewrite (bind_ok _ _ _ _ _ Heq). erewrite bind_ok by reflexivity.
  rewrite <- Hl. rewrite <- Hs in Hk, H1, H2, H3, H4. rewrite <- Hst in Hfirst.
  rewrite (submit_feedback_two_calls wd _ v summary (VFloat p1) (VFloat p2) (VFloat l));
    try done.
  simpl. rewrite logs_of_snoc. simpl. by rewrite app_nil_r.
Qed.

Lemma ready_in_one_run :
  (is_ready fresh_world = false
   ∧ ∀ w, session_state w !! "pred_ready" = None →
          session_state (init_session w).1 !! "pred_ready" = Some (VBool false)
          ∧ is_ready (init_session w).1 = false)
  ∧ (∀ wd w,
        is_ready w = false → is_ready (script_run' wd w).1 = true →
        run_prediction_clicked wd = true
        ∧ (run_prediction' wd (entry_world wd w)).2 = inr ()).
Proof.
  split; [split|].
  - reflexivity.
  - intros w Hk. rewrite init_session_eq. unfold is_ready. simpl.
    rewrite init_map_pred_ready, Hk. done.
  - intros wd w Hw Hw'. rewrite script_run_entry in Hw'.
    pose proof (entry_world_same_ready wd w) as Hentry.
    assert (always same_ready (submit_feedback' wd)) as Hsub.
    { apply (always_weaken same_session), same_session_submit_feedback.
      apply same_session_same_ready. }
    destruct (run_prediction_clicked wd) eqn:Hclick.
    + split; [done|].
      destruct ((run_prediction' wd (entry_world wd w)).2) as [e|[]] eqn:Hrun; [|done].
      exfalso. unfold script_buttons in Hw'. rewrite Hclick in Hw'.
      pose proof (run_prediction_err_frame wd _ e Hrun) as Hf.
      destruct (run_prediction' wd (entry_world wd w)) as [w1 r] eqn:Hrw.
      simpl in Hrun. subst r. erewrite bind_err in Hw' by done.
      apply frame_same_ready in Hf. unfold same_ready in *. simpl in *. congruence.
    + exfalso.
      assert (always same_ready (script_buttons' wd)) as Hb.
      { unfold script_buttons. rewrite Hclick.
        apply always_bind; [apply _ | apply always_mret, _ | intros _].
        apply always_bind; [apply _ | | intros _].
        { apply (always_weaken frame), frame_show_predictions.
          apply frame_same_ready. }
        apply always_bind; [apply _ | | intros _].
        { apply (always_weaken frame), frame_render. apply frame_same_ready. }
        apply always_if; [done | apply always_mret, _]. }
      specialize (Hb (entry_world wd w)). unfold same_ready in *. congruence.
Qed.

(** ** The claims *)

(** C2: with the session ready and the first logger call returning, the
    handler makes exactly two logger calls, in this order: "v1_old" /
    "baseline" with the stored old prediction and the v1 score and text,
    then "v2_new" / "improved" with the stored new prediction and the v2
    score and text; both with the stored summary and the stored latency.
    The same holds of a whole run of the script in which "Submit Feedback"
    was clicked, over a session holding a committed prediction. *)
Theorem feedback_logs_both_models :
  (∀ wd w v summary old_pred new_pred latency,
      session_state w !! "pred_ready" = Some v → truthy v = true →
      session_state w !! "input_summary" = Some summary →
      session_state w !! "old_pred" = Some old_pred →
      session_state w !! "new_pred" = Some new_pred →
      session_state w !! "latency_ms" = Some latency →
      (log_prediction
         (mkLogArgs "v1_old" "baseline" summary old_pred latency
                    (feedback_score wd) (feedback_text wd))
         (log_store w)).2 = None →
      logs_of (trace (submit_feedback' wd w).1)
      = logs_of (trace w)
        ++ [mkLogArgs "v1_old" "baseline" summary old_pred latency
                      (feedback_score wd) (feedback_text wd);
            mkLogArgs "v2_new" "improved" summary new_pred latency
                      (feedback_score_v2 wd) (feedback_text_v2 wd)])
  ∧ (∀ wd w summary old_pred new_pred latency,
        is_ready w = true →
        session_state w !! "input_summary" = Some summary →
        session_state w !! "old_pred" = Some (VFloat old_pred) →
        session_state w !! "new_pred" = Some (VFloat new_pred) →
        session_state w !! "latency_ms" = Some (VFloat latency) →
        run_prediction_clicked wd = false → submit_feedback_clicked wd = true →
        (log_prediction
           (mkLogArgs "v1_old" "baseline" summary (VFloat old_pred) (VFloat latency)
                      (feedback_score wd) (feedback_text wd))
           (log_store w)).2 = None →
        logs_of (trace (script_run' wd w).1)
        = logs_of (trace w)
          ++ [mkLogArgs "v1_old" "baseline" summary (VFloat old_pred)
                        (VFloat latency) (feedback_score wd) (feedback_text wd);
              mkLogArgs "v2_new" "improved" summary (VFloat new_pred)
                        (VFloat latency) (feedback_score_v2 wd)
                        (feedback_text_v2 wd)]).
Proof.
  split.
  - intros wd w v summary old_pred new_pred latency.
    apply submit_feedback_two_calls.
  - intros wd w summary old_pred new_pred latency.
    apply script_run_two_calls.
Qed.

(** C3: when the predict call of either model raises, the run-prediction
    block ends in an exception and the session state is the one it started
    with; and whatever exception ends the block, no key was assigned. *)
Theorem run_prediction_all_or_nothing :
  (∀ wd w e,
      old_model (features_v1 wd) = inl e ∨ new_model (features_v2 wd) = inl e →
      (∃ e', (run_prediction' wd w).2 = inl e')
      ∧ session_state (run_prediction' wd w).1 = session_state w)
  ∧ (∀ wd w e,
        (run_prediction' wd w).2 = inl e →
        session_state (run_prediction' wd w).1 = session_state w).
Proof.
  split.
  - intros wd w e Hraise.
    destruct (run_prediction_cases wd w) as [(p1&r1&p2&r2&H1&H2)|(e'&He'&Hf&_)].
    + destruct Hraise; congruence.
    + split; [by exists e' | by destruct Hf].
  - intros wd w e He. by destruct (run_prediction_err_frame wd w e He).
Qed.

(** C5: a run-prediction block that returns has obtained one score from
    each model, read the clock once before the first and once after the
    second invocation, and committed the two scores together with one
    latency, (end - start) * 1000 over these two readings, and one summary
    string; and it does return whenever both models return a score. *)
Theorem run_prediction_commits_pair :
  (∀ wd w w',
      run_prediction' wd w = (w', inr ()) →
      ∃ p1 r1 p2 r2,
        let start_time := time_time (clock_reads w) in
        let end_time := time_time (S (clock_reads w)) in
        let latency := PrimFloat.mul (PrimFloat.sub end_time start_time) 1000 in
        old_model (features_v1 wd) = inr (p1 :: r1)
        ∧ new_model (features_v2 wd) = inr (p2 :: r2)
        ∧ trace w' = trace w ++ [EvTime start_time;
                                 EvPredict OldModel (features_v1 wd);
                                 EvPredict NewModel (features_v2 wd);
                                 EvTime end_time]
        ∧ session_state w' = commit wd p1 p2 latency (session_state w)
        ∧ session_state w' !! "old_pred" = Some (VFloat p1)
        ∧ session_state w' !! "new_pred" = Some (VFloat p2)
        ∧ session_state w' !! "latency_ms" = Some (VFloat latency)
        ∧ session_state w' !! "input_summary" = Some (VStr (input_summary_of wd))
        ∧ session_state w' !! "pred_ready" = Some (VBool true))
  ∧ (∀ wd w p1 r1 p2 r2,
        old_model (features_v1 wd) = inr (p1 :: r1) →
        new_model (features_v2 wd) = inr (p2 :: r2) →
        (run_prediction' wd w).2 = inr ()).
Proof.
  split.
  - intros wd w w' Hrun.
    destruct (run_prediction_cases wd w) as [(p1&r1&p2&r2&H1&H2)|(e&He&_)].
    2:{ rewrite Hrun in He. done. }
    exists p1, r1, p2, r2.
    rewrite (run_prediction_ok _ _ _ _ _ _ H1 H2) in Hrun.
    injection Hrun as <-. simpl. unfold commit, latency_of.
    repeat split; try done;
      repeat (rewrite lookup_insert_ne by done); by rewrite lookup_insert_eq.
  - intros wd w p1 r1 p2 r2 H1 H2.
    by rewrite (run_prediction_ok _ _ _ _ _ _ H1 H2).
Qed.

(** C6: the summary a returning run-prediction block stores under
    "input_summary" is the text of the four inputs in the order StartHour,
    TurnAroundTime, DisplayValue, ProposedProcedure, whatever the models and
    the clock return; for StartHour 8, TurnAroundTime 15, "OR 1" and
    "COLOSCP - COLONOSCOPY;" it is the text of the spec's scenario. *)
Theorem input_summary_format :
  (∀ wd w w',
      run_prediction old_model new_model time_time wd w = (w', inr ()) →
      session_state w' !! "input_summary"
      = Some (VStr ("StartHour=" +:+ pretty (StartHour wd)
                    +:+ ", TurnAroundTime=" +:+ pretty (TurnAroundTime wd)
                    +:+ ", DisplayValue=" +:+ DisplayValue wd
                    +:+ ", ProposedProcedure=" +:+ ProposedProcedure wd)))
  ∧ (∀ wd w w',
        StartHour wd = 8 → TurnAroundTime wd = 15 → DisplayValue wd = "OR 1" →
        ProposedProcedure wd = "COLOSCP - COLONOSCOPY;" →
        run_prediction old_model new_model time_time wd w = (w', inr ()) →
        session_state w' !! "input_summary"
        = Some (VStr "StartHour=8, TurnAroundTime=15, DisplayValue=OR 1, ProposedProcedure=COLOSCP - COLONOSCOPY;")).
Proof.
  assert (∀ wd w w', run_prediction' wd w = (w', inr ()) →
            session_state w' !! "input_summary" = Some (VStr (input_summary_of wd)))
    as Hsum.
  { intros wd w w' Hrun.
    destruct (run_prediction_cases wd w) as [(p1&r1&p2&r2&H1&H2)|(e&He&_)].
    2:{ rewrite Hrun in He. done. }
    rewrite (run_prediction_ok _ _ _ _ _ _ H1 H2) in Hrun.
    injection Hrun as <-. simpl. unfold commit.
    rewrite lookup_insert_ne by done. by rewrite lookup_insert_eq. }
  split.
  - intros wd w w' Hrun. by rewrite (Hsum _ _ _ Hrun).
  - intros wd w w' Hsh Htat Hdv Hpp Hrun. rewrite (Hsum _ _ _ Hrun).
    unfold input_summary_of. by rewrite Hsh, Htat, Hdv, Hpp.
Qed.

(** C7: the run-prediction block first invokes the baseline model, on the
    frame of the columns DisplayValue and ProposedProcedure of the current
    input; when that returns a score it then invokes the improved model, on
    the frame of StartHour, TurnAroundTime, DisplayValue and
    ProposedProcedure; every cell is the widget's value, and no other
    invocation is made. *)
Theorem models_receive_their_features wd w :
  predicts_of (trace (run_prediction' wd w).1)
  = predicts_of (trace w)
    ++ (OldModel, [("DisplayValue", [CStr (DisplayValue wd)]);
                   ("ProposedProcedure", [CStr (ProposedProcedure wd)])])
       :: match old_model [("DisplayValue", [CStr (DisplayValue wd)]);
                           ("ProposedProcedure", [CStr (ProposedProcedure wd)])] with
          | inr (_ :: _) =>
              [(NewModel, [("StartHour", [CInt (StartHour wd)]);
                           ("TurnAroundTime", [CInt (TurnAroundTime wd)]);
                           ("DisplayValue", [CStr (DisplayValue wd)]);
                           ("ProposedProcedure", [CStr (ProposedProcedure wd)])])]
          | _ => []
          end.
Proof.
  change [("DisplayValue", [CStr (DisplayValue wd)]);
          ("ProposedProcedure", [CStr (ProposedProcedure wd)])]
    with (features_v1 wd).
  unfold run_prediction, mbind, M_mbind, M_bind, now, lift, predict, model_predict.
  rewrite df_select_v1, df_select_v2. simpl.
  destruct (old_model (features_v1 wd)) as [e1|[|p1 r1]]; simpl;
    [| |destruct (new_model (features_v2 wd)) as [e2|[|p2 r2]]; simpl];
    unfold predicts_of; rewrite !omap_app; simpl; rewrite ?app_nil_r;
    by rewrite <- ?app_assoc.
Qed.

(** C9 (amended): when the first logger call raises in a ready session,
    the handler ends in that exception: the second call is not made, the
    success message is not rendered, the session state is the one before,
    exactly one logger call was made, and the log is as the failed call left
    it, which for an atomic logger is the log before the submission. *)
Theorem first_logger_failure_stops_submission
    wd w v summary old_pred new_pred latency st1 e :
  session_state w !! "pred_ready" = Some v → truthy v = true →
  session_state w !! "input_summary" = Some summary →
  session_state w !! "old_pred" = Some old_pred →
  session_state w !! "new_pred" = Some new_pred →
  session_state w !! "latency_ms" = Some latency →
  log_prediction
    (mkLogArgs "v1_old" "baseline" summary old_pred latency
               (feedback_score wd) (feedback_text wd))
    (log_store w) = (st1, Some e) →
  (submit_feedback' wd w).2 = inl e
  ∧ logs_of (trace (submit_feedback' wd w).1)
    = logs_of (trace w)
      ++ [mkLogArgs "v1_old" "baseline" summary old_pred latency
                    (feedback_score wd) (feedback_text wd)]
  ∧ successes_of (trace (submit_feedback' wd w).1) = successes_of (trace w)
  ∧ session_state (submit_feedback' wd w).1 = session_state w
  ∧ log_store (submit_feedback' wd w).1 = st1
  ∧ (atomic_logger log_prediction →
     log_store (submit_feedback' wd w).1 = log_store w).
Proof.
  intros Hk Hv H1 H2 H3 H4 Hfirst.
  rewrite (submit_feedback_ready _ _ _ _ _ _ _ Hk Hv H1 H2 H3 H4). simpl.
  unfold log_args_v1. rewrite Hfirst. simpl.
  rewrite logs_of_snoc, successes_of_snoc. simpl. rewrite app_nil_r.
  repeat split. intros Hatomic. by apply (Hatomic _ _ _ _ Hfirst).
Qed.

(** C10: the feedback handler never assigns a session key: rejected,
    completed or ended by a logger exception, it leaves the session state,
    and so each of the five workflow keys, as it found it; a whole run of
    the script in which "Run Prediction" was not clicked only adds the keys
    the initialisation found missing. *)
Theorem submit_feedback_keeps_session :
  (∀ wd w,
      session_state (submit_feedback' wd w).1 = session_state w
      ∧ Forall (λ k, session_state (submit_feedback' wd w).1 !! k
                     = session_state w !! k)
               ["pred_ready"; "old_pred"; "new_pred"; "latency_ms";
                "input_summary"])
  ∧ (∀ wd w,
        run_prediction_clicked wd = false →
        session_state (script_run' wd w).1 = init_map (session_state w)
        ∧ (initialised (session_state w) →
           session_state (script_run' wd w).1 = session_state w)).
Proof.
  split.
  - intros wd w. pose proof (same_session_submit_feedback wd w) as Hs.
    unfold same_session in Hs. split; [done|]. rewrite Hs.
    by repeat constructor.
  - intros wd w Hclick. rewrite script_run_entry.
    assert (always same_session (script_buttons' wd)) as Hb.
    { unfold script_buttons. rewrite Hclick.
      apply always_bind; [apply _ | apply always_mret, _ | intros _].
      apply always_bind; [apply _ | | intros _].
      { apply (always_weaken frame), frame_show_predictions.
        apply frame_same_session. }
      apply always_bind; [apply _ | | intros _].
      { apply (always_weaken frame), frame_render. apply frame_same_session. }
      apply always_if; [apply same_session_submit_feedback | apply always_mret, _]. }
    specialize (Hb (entry_world wd w)). unfold same_session in Hb. simpl in Hb.
    split; [done|]. intros Hi. by rewrite Hb, init_map_id.
Qed.

End Properties.

(** C8: the controls are declared with the closed domains and defaults of
    the input schema: StartHour 0..23 starting at 8, TurnAroundTime 0..120
    starting at 15, DisplayValue among sixteen distinct tokens ("OR 1" to
    "OR 12", "Endo 1" to "Endo 4"), ProposedProcedure among four distinct
    tokens, and both feedback scores 1..5 starting at 4. *)
Theorem input_controls_domains :
  (∀ v, slider_accepts StartHour_slider v = true ↔ 0 ≤ v ≤ 23)
  ∧ slider_default StartHour_slider = 8
  ∧ (∀ v, slider_accepts TurnAroundTime_slider v = true ↔ 0 ≤ v ≤ 120)
  ∧ slider_default TurnAroundTime_slider = 15
  ∧ (∀ v, selectbox_accepts DisplayValue_options v = true
          ↔ v ∈ DisplayValue_options)
  ∧ DisplayValue_options
    = map (λ n : Z, "OR " +:+ pretty n) [1; 2; 3; 4; 5; 6; 7; 8; 9; 10; 11; 12]
      ++ map (λ n : Z, "Endo " +:+ pretty n) [1; 2; 3; 4]
  ∧ List.length DisplayValue_options = 16%nat
  ∧ NoDup DisplayValue_options
  ∧ (∀ v, selectbox_accepts ProposedProcedure_options v = true
          ↔ v ∈ ProposedProcedure_options)
  ∧ List.length ProposedProcedure_options = 4%nat
  ∧ NoDup ProposedProcedure_options
  ∧ (∀ v, slider_accepts feedback_score_slider v = true ↔ 1 ≤ v ≤ 5)
  ∧ slider_default feedback_score_slider = 4
  ∧ (∀ v, slider_accepts feedback_score_v2_slider v = true ↔ 1 ≤ v ≤ 5)
  ∧ slider_default feedback_score_v2_slider = 4
  ∧ default_widgets
    = Some (mkWidgets 8 15 "OR 1" "COLOSCP - COLONOSCOPY;" false 4 "" 4 "" false).
Proof.
  assert (∀ sl v, slider_accepts sl v = true ↔ min_value sl ≤ v ≤ max_value sl)
    as Hsl.
  { intros sl v. unfold slider_accepts. rewrite andb_true_iff, !Z.leb_le. done. }
  assert (∀ sb v, selectbox_accepts sb v = true ↔ v ∈ sb) as Hsb.
  { intros sb v. unfold selectbox_accepts. rewrite existsb_exists. split.
    - intros (x&Hin&Heq). apply String.eqb_eq in Heq. subst x.
      by apply list_elem_of_In.
    - intros Hin. exists v. split; [by apply list_elem_of_In | apply String.eqb_refl]. }
  split_and!; try apply Hsl; try apply Hsb; try reflexivity; compute_done.
Qed.

(** ** Whole sessions *)

Lemma session_runs_keeps old_model new_model time_time (P : World → Prop) :
  (∀ log_prediction wd,
      always (keeps P)
             (script_run old_model new_model time_time log_prediction wd)) →
  ∀ runs w, P w → P (session_runs old_model new_model time_time runs w).
Proof.
  intros Hrun runs.
  induction runs as [|[wd log_prediction] runs IH]; intros w Hw; simpl; [done|].
  by apply IH, Hrun.
Qed.

(** C1: feedback submitted while the session is not ready makes no logger
    call, shows exactly one warning and leaves the session and the log as
    they were, for the handler alone and for a whole run of the script in
    which "Submit Feedback" was clicked; and in every session, started
    fresh, every logger call ever made carries a float prediction, a float
    latency and a summary string. *)
Theorem feedback_before_prediction_rejected old_model new_model time_time :
  (∀ log_prediction wd w v,
      session_state w !! "pred_ready" = Some v → truthy v = false →
      (submit_feedback log_prediction wd w).2 = inr ()
      ∧ logs_of (trace (submit_feedback log_prediction wd w).1) = logs_of (trace w)
      ∧ log_store (submit_feedback log_prediction wd w).1 = log_store w
      ∧ warnings_of (trace (submit_feedback log_prediction wd w).1)
        = warnings_of (trace w)
          ++ ["Please run the prediction first, then submit your feedback."]
      ∧ session_state (submit_feedback log_prediction wd w).1 = session_state w)
  ∧ (∀ log_prediction wd w,
        let r := script_run old_model new_model time_time log_prediction wd w in
        is_ready w = false → run_prediction_clicked wd = false →
        submit_feedback_clicked wd = true →
        r.2 = inr ()
        ∧ logs_of (trace r.1) = logs_of (trace w)
        ∧ log_store r.1 = log_store w
        ∧ warnings_of (trace r.1)
          = warnings_of (trace w)
            ++ ["Please run the prediction first, then submit your feedback."]
        ∧ session_state r.1 = init_map (session_state w)
        ∧ (initialised (session_state w) → session_state r.1 = session_state w))
  ∧ (∀ runs,
        Forall refers_to_prediction
               (logs_of (trace (session_runs old_model new_model time_time runs
                                             fresh_world)))).
Proof.
  split_and!.
  - intros log_prediction.
    apply (feedback_rejected_in_one_run old_model new_model time_time).
  - intros log_prediction wd w r.
    apply (feedback_rejected_in_one_run old_model new_model time_time).
  - intros runs.
    by apply (session_runs_keeps _ _ _ session_inv (script_run_keeps_inv _ _ _)),
             fresh_world_inv.
Qed.

(** C4: a fresh session is not ready and the initialisation stores
    [False] under "pred_ready"; a run of the script takes the session from
    not ready to ready only if "Run Prediction" was clicked and its handler
    ran to the end without an exception; and once the session is ready it
    is ready after every further sequence of runs. *)
Theorem ready_is_monotone old_model new_model time_time :
  (is_ready fresh_world = false
   ∧ ∀ w, session_state w !! "pred_ready" = None →
          session_state (init_session w).1 !! "pred_ready" = Some (VBool false)
          ∧ is_ready (init_session w).1 = false)
  ∧ (∀ log_prediction wd w,
        is_ready w = false →
        is_ready (script_run old_model new_model time_time log_prediction wd w).1
        = true →
        run_prediction_clicked wd = true
        ∧ (run_prediction old_model new_model time_time wd (entry_world wd w)).2
          = inr ())
  ∧ (∀ runs w,
        is_ready w = true →
        is_ready (session_runs old_model new_model time_time runs w) = true).
Proof.
  split_and!.
  - reflexivity.
  - apply (ready_in_one_run old_model new_model time_time (λ _ st, (st, None))).
  - intros log_prediction. apply ready_in_one_run.
  - intros runs w Hw.
    by apply (session_runs_keeps _ _ _ ready (script_run_keeps_ready _ _ _)).
Qed.

(** ** The theorems at concrete sessions *)

Lemma spec_log_prediction_atomic available stamp :
  atomic_logger (spec_log_prediction available stamp).
Proof.
  intros args st st' e. unfold spec_log_prediction.
  destruct (available st); [done|]. by intros [= <- _].
Qed.

Lemma feedback_before_prediction_rejected_witness :
  let w := entry_world example_feedback fresh_world in
  let r := submit_feedback good_logger example_feedback w in
  let r' := script_run (const_model 30) (const_model 41.5) example_clock
                       good_logger example_feedback fresh_world in
  (session_state w !! "pred_ready" = Some (VBool false)
   ∧ truthy (VBool false) = false
   ∧ r.2 = inr () ∧ logs_of (trace r.1) = logs_of (trace w)
   ∧ warnings_of (trace r.1)
     = warnings_of (trace w)
       ++ ["Please run the prediction first, then submit your feedback."]
   ∧ session_state r.1 = session_state w)
  ∧ (is_ready fresh_world = false
     ∧ run_prediction_clicked example_feedback = false
     ∧ submit_feedback_clicked example_feedback = true
     ∧ r'.2 = inr () ∧ logs_of (trace r'.1) = logs_of (trace fresh_world)
     ∧ warnings_of (trace r'.1)
       = ["Please run the prediction first, then submit your feedback."]).
Proof.
  intros w r r'.
  destruct (feedback_before_prediction_rejected
              (const_model 30) (const_model 41.5) example_clock)
    as (Hhandler & Hscript & _).
  assert (session_state w !! "pred_ready" = Some (VBool false)) as Hk
    by (vm_compute; reflexivity).
  split.
  - destruct (Hhandler good_logger example_feedback w (VBool false) Hk eq_refl)
      as (?&?&?&?&?).
    by repeat split.
  - destruct (Hscript good_logger example_feedback fresh_world
                eq_refl eq_refl eq_refl) as (?&?&?&?&?).
    by repeat split.
Defined.

Lemma feedback_logs_both_models_witness :
  let w := example_ready_world in
  let summary :=
    VStr "StartHour=8, TurnAroundTime=15, DisplayValue=OR 1, ProposedProcedure=COLOSCP - COLONOSCOPY;" in
  let calls :=
    [mkLogArgs "v1_old" "baseline" summary (VFloat 30) (VFloat 250) 5 "great";
     mkLogArgs "v2_new" "improved" summary (VFloat 41.5) (VFloat 250) 3 "meh"] in
  session_state w !! "pred_ready" = Some (VBool true)
  ∧ (good_logger (mkLogArgs "v1_old" "baseline" summary (VFloat 30) (VFloat 250)
                            5 "great") (log_store w)).2 = None
  ∧ logs_of (trace (submit_feedback good_logger example_feedback w).1)
    = logs_of (trace w) ++ calls
  ∧ logs_of (trace (script_run (const_model 30) (const_model 41.5) example_clock
                               good_logger example_feedback w).1)
    = logs_of (trace w) ++ calls.
Proof.
  intros w summary calls.
  destruct (feedback_logs_both_models (const_model 30) (const_model 41.5)
              example_clock good_logger) as (Hhandler & Hscript).
  split; [vm_compute; reflexivity|]. split; [reflexivity|]. split.
  - apply (Hhandler example_feedback w (VBool true) summary
             (VFloat 30) (VFloat 41.5) (VFloat 250));
      solve [reflexivity | vm_compute; reflexivity].
  - apply (Hscript example_feedback w summary 30%float 41.5%float 250%float);
      solve [reflexivity | vm_compute; reflexivity].
Defined.

Lemma run_prediction_all_or_nothing_witness :
  let run := run_prediction (const_model 30) broken_model example_clock
                            example_widgets example_ready_world in
  broken_model (features_v2 example_widgets) = inl (Raised "predict")
  ∧ run.2 = inl (Raised "predict")
  ∧ (∃ e, run.2 = inl e)
  ∧ session_state run.1 = session_state example_ready_world.
Proof.
  intros run.
  destruct (run_prediction_all_or_nothing (const_model 30) broken_model example_clock)
    as (Hraise & Hany).
  assert (run.2 = inl (Raised "predict")) as Hrun by (vm_compute; reflexivity).
  destruct (Hraise example_widgets example_ready_world (Raised "predict")
              (or_intror eq_refl)) as (He & _).
  pose proof (Hany example_widgets example_ready_world _ Hrun) as Hs.
  by repeat split.
Defined.

Lemma ready_is_monotone_witness :
  let run := script_run (const_model 30) (const_model 41.5) example_clock
                        good_logger in
  let runs := session_runs (const_model 30) broken_model example_clock in
  (session_state fresh_world !! "pred_ready" = None
   ∧ session_state (init_session fresh_world).1 !! "pred_ready"
     = Some (VBool false))
  ∧ (is_ready fresh_world = false
     ∧ is_ready (run example_widgets fresh_world).1 = true
     ∧ run_prediction_clicked example_widgets = true
     ∧ (run_prediction (const_model 30) (const_model 41.5) example_clock
          example_widgets (entry_world example_widgets fresh_world)).2 = inr ())
  ∧ (is_ready example_ready_world = true
     ∧ is_ready (runs [(example_widgets, good_logger);
                       (example_feedback, full_disk_logger);
                       (example_feedback, good_logger)] example_ready_world)
       = true).
Proof.
  intros run runs.
  destruct (ready_is_monotone (const_model 30) (const_model 41.5) example_clock)
    as ((_ & Hinit) & Honly & _).
  destruct (ready_is_monotone (const_model 30) broken_model example_clock)
    as (_ & _ & Hkeep).
  assert (is_ready (run example_widgets fresh_world).1 = true) as Hr
    by (vm_compute; reflexivity).
  assert (is_ready example_ready_world = true) as Hr' by (vm_compute; reflexivity).
  destruct (Hinit fresh_world eq_refl) as (? & _).
  destruct (Honly good_logger example_widgets fresh_world eq_refl Hr) as (? & ?).
  pose proof (Hkeep [(example_widgets, good_logger);
                     (example_feedback, full_disk_logger);
                     (example_feedback, good_logger)] example_ready_world Hr').
  by repeat split.
Defined.

Lemma run_prediction_commits_pair_witness :
  let run := run_prediction (const_model 30) (const_model 41.5) example_clock
                            example_widgets fresh_world in
  run = (run.1, inr ())
  ∧ session_state run.1 !! "old_pred" = Some (VFloat 30)
  ∧ session_state run.1 !! "new_pred" = Some (VFloat 41.5)
  ∧ session_state run.1 !! "latency_ms" = Some (VFloat 250)
  ∧ session_state run.1 !! "pred_ready" = Some (VBool true).
Proof.
  intros run.
  assert (run = (run.1, inr ())) as Hrun by (vm_compute; reflexivity).
  destruct (run_prediction_commits_pair (const_model 30) (const_model 41.5)
              example_clock) as (Hcommit & Hreturns).
  destruct (Hcommit example_widgets fresh_world run.1 Hrun)
    as (p1&r1&p2&r2&H1&H2&_&_&Ho&Hn&Hl&_&Hp).
  injection H1 as <- <-. injection H2 as <- <-.
  pose proof (Hreturns example_widgets fresh_world 30%float [] 41.5%float []
                eq_refl eq_refl) as _.
  by repeat split.
Defined.

Lemma input_summary_format_witness :
  let run := run_prediction (const_model 30) (const_model 41.5) example_clock
                            example_widgets fresh_world in
  run = (run.1, inr ())
  ∧ session_state run.1 !! "input_summary"
    = Some (VStr "StartHour=8, TurnAroundTime=15, DisplayValue=OR 1, ProposedProcedure=COLOSCP - COLONOSCOPY;").
Proof.
  intros run.
  assert (run = (run.1, inr ())) as Hrun by (vm_compute; reflexivity).
  split; [done|].
  destruct (input_summary_format (const_model 30) (const_model 41.5)
              example_clock) as (_ & Hexample).
  by apply (Hexample example_widgets fresh_world).
Defined.

Lemma first_logger_failure_stops_submission_witness :
  let w := example_ready_world in
  let summary :=
    VStr "StartHour=8, TurnAroundTime=15, DisplayValue=OR 1, ProposedProcedure=COLOSCP - COLONOSCOPY;" in
  let r := submit_feedback full_disk_logger example_feedback w in
  full_disk_logger (mkLogArgs "v1_old" "baseline" summary (VFloat 30) (VFloat 250)
                              5 "great") (log_store w)
  = ([], Some (Raised "log_prediction"))
  ∧ r.2 = inl (Raised "log_prediction")
  ∧ logs_of (trace r.1)
    = [mkLogArgs "v1_old" "baseline" summary (VFloat 30) (VFloat 250) 5 "great"]
  ∧ successes_of (trace r.1) = []
  ∧ session_state r.1 = session_state w
  ∧ log_store r.1 = log_store w.
Proof.
  intros w summary r.
  destruct (first_logger_failure_stops_submission full_disk_logger example_feedback
              w (VBool true) summary (VFloat 30) (VFloat 41.5) (VFloat 250) []
              (Raised "log_prediction"))
    as (?&?&?&?&_&Hatomic);
    try solve [reflexivity | vm_compute; reflexivity].
  specialize (Hatomic (spec_log_prediction_atomic _ _)).
  by repeat split.
Defined.

Lemma submit_feedback_keeps_session_witness :
  let r := script_run (const_model 30) (const_model 41.5) example_clock
                      good_logger example_feedback example_ready_world in
  run_prediction_clicked example_feedback = false
  ∧ initialised (session_state example_ready_world)
  ∧ session_state r.1 = session_state example_ready_world.
Proof.
  intros r.
  destruct (submit_feedback_keeps_session (const_model 30) (const_model 41.5)
              example_clock good_logger) as (_ & Hscript).
  assert (initialised (session_state example_ready_world)) as Hi.
  { repeat split; vm_compute; eauto. }
  destruct (Hscript example_feedback example_ready_world eq_refl) as (_ & Hs).
  split; [done|]. split; [done|]. by apply Hs.
Defined.

(** C9, as claimed, fails: a first logger call that raises leaves the log
    without any record of the submission, not with one. *)
Lemma first_logger_failure_appends_no_record :
  let w := example_ready_world in
  let r := submit_feedback full_disk_logger example_feedback w in
  is_ready w = true
  ∧ (full_disk_logger
       (mkLogArgs "v1_old" "baseline"
          (VStr "StartHour=8, TurnAroundTime=15, DisplayValue=OR 1, ProposedProcedure=COLOSCP - COLONOSCOPY;")
          (VFloat 30) (VFloat 250) 5 "great")
       (log_store w)).2 = Some (Raised "log_prediction")
  ∧ r.2 = inl (Raised "log_prediction")
  ∧ log_store r.1 = log_store w
  ∧ List.length (log_store r.1) ≠ S (List.length (log_store w)).
Proof. vm_compute. by repeat split. Qed.

(** It is a failure of the second call that leaves exactly one record. *)
Example second_logger_failure_keeps_first_record :
  let one_record_only :=
    spec_log_prediction (λ st, match st with [] => true | _ => false end)
                        (λ _, 7%float) in
  let r := submit_feedback one_record_only example_feedback example_ready_world in
  r.2 = inl (Raised "log_prediction")
  ∧ map (λ rec, model_version (logged rec)) (log_store r.1) = ["v1_old"]
  ∧ successes_of (trace r.1) = [].
Proof. vm_compute. by repeat split. Qed.

(** ** Further properties of the blocks *)

Lemma init_map_union s : init_map s = s ∪ list_to_map session_defaults.
Proof.
  apply map_eq. intros k. rewrite lookup_union.
  unfold session_defaults. simpl list_to_map. unfold init_map.
  destruct (decide (k = "input_summary")) as [->|];
    [rewrite lookup_init_one_eq; repeat (rewrite lookup_init_one_ne by done);
     by destruct (s !! _)|].
  rewrite lookup_init_one_ne by done.
  destruct (decide (k = "latency_ms")) as [->|];
    [rewrite lookup_init_one_eq; repeat (rewrite lookup_init_one_ne by done);
     by destruct (s !! _)|].
  rewrite lookup_init_one_ne by done.
  destruct (decide (k = "new_pred")) as [->|];
    [rewrite lookup_init_one_eq; repeat (rewrite lookup_init_one_ne by done);
     by destruct (s !! _)|].
  rewrite lookup_init_one_ne by done.
  destruct (decide (k = "old_pred")) as [->|];
    [rewrite lookup_init_one_eq; repeat (rewrite lookup_init_one_ne by done);
     by destruct (s !! _)|].
  rewrite lookup_init_one_ne by done.
  destruct (decide (k = "pred_ready")) as [->|];
    [rewrite lookup_init_one_eq; by destruct (s !! _)|].
  rewrite lookup_init_one_ne by done.
  repeat (rewrite lookup_insert_ne by done). rewrite lookup_empty.
  by destruct (s !! k).
Qed.

Lemma commit_lookup wd p1 p2 l s k :
  commit wd p1 p2 l s !! k
  = if decide (k = "pred_ready") then Some (VBool true)
    else if decide (k = "input_summary") then Some (VStr (input_summary_of wd))
    else if decide (k = "latency_ms") then Some (VFloat l)
    else if decide (k = "new_pred") then Some (VFloat p2)
    else if decide (k = "old_pred") then Some (VFloat p1)
    else s !! k.
Proof.
  unfold commit. rewrite !lookup_insert. by repeat case_decide; simplify_eq.
Qed.


(** X1: the initialisation of lines 21-30 always returns; it gives each of
    the five keys it finds missing its default and leaves every value it
    finds, and nothing else of the world changes; run again, it changes
    nothing. *)
Theorem init_session_fills_missing_keys w :
  init_session w
  = (with_session (λ s, s ∪ list_to_map session_defaults) w, inr ())
  ∧ (∀ k v, session_state w !! k = Some v →
            session_state (init_session w).1 !! k = Some v)
  ∧ (∀ k v, session_state w !! k = None → (k, v) ∈ session_defaults →
            session_state (init_session w).1 !! k = Some v)
  ∧ (∀ k, k ∉ workflow_keys →
          session_state (init_session w).1 !! k = session_state w !! k)
  ∧ init_session (init_session w).1 = ((init_session w).1, inr ()).
Proof.
  rewrite !init_session_eq. simpl. split_and!.
  - destruct w. unfold with_session. simpl. by rewrite init_map_union.
  - intros k v Hk. by apply init_map_lookup_present.
  - intros k v Hk Hin. rewrite init_map_union, lookup_union, Hk.
    unfold session_defaults in *.
    repeat (apply elem_of_cons in Hin as [[= -> ->]|Hin]; [done|]).
    by apply elem_of_nil in Hin.
  - intros k Hk. rewrite init_map_union, lookup_union.
    assert (list_to_map session_defaults !! k = (None : option pyval)) as ->.
    { apply not_elem_of_list_to_map_1. exact Hk. }
    by destruct (session_state w !! k).
  - f_equal. destruct w. unfold with_session. simpl.
    f_equal. apply init_map_id, init_map_initialised.
Qed.

Lemma init_session_fills_missing_keys_witness :
  session_state example_ready_world !! "old_pred" = Some (VFloat 30)
  ∧ session_state (init_session example_ready_world).1 !! "old_pred"
    = Some (VFloat 30)
  ∧ session_state fresh_world !! "input_summary" = None
  ∧ session_state (init_session fresh_world).1 !! "input_summary" = Some (VStr "").
Proof.
  destruct (init_session_fills_missing_keys example_ready_world)
    as (_ & Hkeep & _).
  destruct (init_session_fills_missing_keys fresh_world) as (_ & _ & Hfill & _).
  assert (session_state example_ready_world !! "old_pred" = Some (VFloat 30))
    as Hk by (vm_compute; reflexivity).
  split; [done|]. split; [by apply Hkeep|]. split; [done|].
  apply Hfill; [done|]. unfold session_defaults. set_solver.
Defined.

Section MoreProperties.

Variable old_model new_model : DataFrame → exn + list float.
Variable time_time : nat → float.
Variable log_prediction : LogArgs → list LogRecord → list LogRecord * option exn.

#[local] Abbreviation run_prediction' := (run_prediction old_model new_model time_time).
#[local] Abbreviation submit_feedback' := (submit_feedback log_prediction).
#[local] Abbreviation script_run' :=
  (script_run old_model new_model time_time log_prediction).
#[local] Abbreviation script_buttons' :=
  (script_buttons old_model new_model time_time log_prediction).


(** X3: the run-prediction block ends in the exception [e] exactly when the
    baseline model raises [e], or returns an empty array and [e] is
    IndexError, or the baseline returns a score and the improved model
    raises [e] or returns an empty array ([e] IndexError); the frame
    projections themselves never raise. *)
Theorem run_prediction_failure_modes wd w e :
  (run_prediction' wd w).2 = inl e
  ↔ old_model (features_v1 wd) = inl e
    ∨ (old_model (features_v1 wd) = inr [] ∧ e = IndexError)
    ∨ (∃ p1 r1, old_model (features_v1 wd) = inr (p1 :: r1)
                ∧ (new_model (features_v2 wd) = inl e
                   ∨ (new_model (features_v2 wd) = inr [] ∧ e = IndexError))).
Proof.
  unfold run_prediction, mbind, M_mbind, M_bind, now, lift, predict, model_predict.
  rewrite df_select_v1, df_select_v2. simpl.
  destruct (old_model (features_v1 wd)) as [e1|[|p1 r1]]; simpl;
    [| |destruct (new_model (features_v2 wd)) as [e2|[|p2 r2]]; simpl];
    (split;
     [ intros Hcase; simplify_eq; eauto 10
     | intros [?|[[? ?]|(?&?&?&[?|[? ?]])]]; by simplify_eq ]).
Qed.

(** X4: the run-prediction block calls no logger, leaves the log alone and
    renders nothing; it reads the clock twice when it returns and once when
    it ends in an exception. *)
Theorem run_prediction_side_effects wd w :
  logs_of (trace (run_prediction' wd w).1) = logs_of (trace w)
  ∧ log_store (run_prediction' wd w).1 = log_store w
  ∧ elements_of (trace (run_prediction' wd w).1) = elements_of (trace w)
  ∧ clock_reads (run_prediction' wd w).1
    = match (run_prediction' wd w).2 with
      | inr _ => S (S (clock_reads w))
      | inl _ => S (clock_reads w)
      end.
Proof.
  unfold run_prediction, mbind, M_mbind, M_bind, now, lift, predict, model_predict.
  rewrite df_select_v1, df_select_v2. simpl.
  destruct (old_model (features_v1 wd)) as [e1|[|p1 r1]]; simpl;
    [| |destruct (new_model (features_v2 wd)) as [e2|[|p2 r2]]; simpl];
    unfold logs_of, elements_of; rewrite !omap_app; simpl;
    by rewrite ?app_nil_r.
Qed.

(** X5: the feedback handler invokes no model and reads no clock; it makes
    at most two logger calls, "v1_old" before "v2_new", and renders at most
    one element, whatever the session holds and however the logger
    behaves. *)
Theorem submit_feedback_side_effects wd w :
  predicts_of (trace (submit_feedback' wd w).1) = predicts_of (trace w)
  ∧ clock_reads (submit_feedback' wd w).1 = clock_reads w
  ∧ (∃ calls,
        logs_of (trace (submit_feedback' wd w).1) = logs_of (trace w) ++ calls
        ∧ map model_version calls `prefix_of` ["v1_old"; "v2_new"])
  ∧ (∃ shown,
        elements_of (trace (submit_feedback' wd w).1)
        = elements_of (trace w) ++ shown
        ∧ (List.length shown ≤ 1)%nat).
Proof.
  unfold submit_feedback, mbind, M_mbind, M_bind, getitem, call_log_prediction,
    render.
  repeat (simpl; case_match; simplify_eq);
    simpl; unfold predicts_of, logs_of, elements_of; rewrite ?omap_app; simpl;
    rewrite ?app_nil_r.
  all: split_and!; try done.
  all: first
    [ exists []; split; [by rewrite app_nil_r|]
    | eexists; split; [by rewrite <- ?app_assoc|] ].
  all: simpl;
    first [ lia | reflexivity | apply prefix_nil | by apply prefix_cons, prefix_nil ].
Qed.

Lemma show_predictions_eq w v p1 p2 l :
  session_state w !! "pred_ready" = Some v → truthy v = true →
  session_state w !! "old_pred" = Some (VFloat p1) →
  session_state w !! "new_pred" = Some (VFloat p2) →
  session_state w !! "latency_ms" = Some (VFloat l) →
  show_predictions w
  = (mkWorld (session_state w) (clock_reads w) (log_store w)
       (trace w ++ map EvUi (predictions_shown p1 p2 l)),
     inr ()).
Proof.
  intros Hk Hv H1 H2 H3.
  unfold show_predictions, mbind, M_mbind, M_bind, getitem, render.
  rewrite Hk, Hv. simpl. rewrite H1. simpl. rewrite H2. simpl. rewrite H3. simpl.
  unfold with_event. simpl. by rewrite <- !app_assoc.
Qed.

(** X6: for a ready session holding floats, the display block renders the
    "Predictions" subheader and the stored old score, new score and
    latency, in this order, and returns; for a session that is not ready it
    renders one hint and returns; a ready session whose "old_pred" is
    [None] makes it end in TypeError after the subheader.  The session, the
    clock and the log are never touched. *)
Theorem show_predictions_renders_stored :
  (∀ w v p1 p2 l,
      session_state w !! "pred_ready" = Some v → truthy v = true →
      session_state w !! "old_pred" = Some (VFloat p1) →
      session_state w !! "new_pred" = Some (VFloat p2) →
      session_state w !! "latency_ms" = Some (VFloat l) →
      (show_predictions w).2 = inr ()
      ∧ elements_of (trace (show_predictions w).1)
        = elements_of (trace w)
          ++ [Subheader "Predictions";
              Formatted "Old Model (v1 - ProposedProcedure + DisplayValue only): **" p1 "**";
              Formatted "New Model (v2 - ProposedProcedure + DisplayValue + StartHour + TurnAroundTime): **" p2 "**";
              Formatted "Latency: " l " ms"])
  ∧ (∀ w v,
        session_state w !! "pred_ready" = Some v → truthy v = false →
        (show_predictions w).2 = inr ()
        ∧ elements_of (trace (show_predictions w).1)
          = elements_of (trace w)
            ++ [Info "Click **Run Prediction** to see model outputs before giving feedback."])
  ∧ (∀ w v,
        session_state w !! "pred_ready" = Some v → truthy v = true →
        session_state w !! "old_pred" = Some VNone →
        (show_predictions w).2 = inl TypeError
        ∧ elements_of (trace (show_predictions w).1)
          = elements_of (trace w) ++ [Subheader "Predictions"])
  ∧ (∀ w, session_state (show_predictions w).1 = session_state w
          ∧ clock_reads (show_predictions w).1 = clock_reads w
          ∧ log_store (show_predictions w).1 = log_store w
          ∧ logs_of (trace (show_predictions w).1) = logs_of (trace w)).
Proof.
  split_and!.
  - intros w v p1 p2 l Hk Hv H1 H2 H3.
    rewrite (show_predictions_eq w v p1 p2 l) by done. simpl. split; [done|].
    unfold elements_of. by rewrite omap_app.
  - intros w v Hk Hv. rewrite (show_predictions_not_ready w v) by done. simpl.
    split; [done|]. unfold elements_of. by rewrite omap_app.
  - intros w v Hk Hv H1.
    unfold show_predictions, mbind, M_mbind, M_bind, getitem, render.
    rewrite Hk, Hv. simpl. rewrite H1. simpl. split; [done|].
    unfold elements_of. by rewrite omap_app.
  - intros w. destruct (frame_show_predictions w) as (Hs&Hl&Hst).
    split_and!; try done.
    unfold show_predictions, mbind, M_mbind, M_bind, getitem, render, format_f,
      raise, mret, M_ret.
    repeat (simpl; case_match; simplify_eq); by simpl.
Qed.

Lemma script_run_rerender wd w p1 p2 l :
  is_ready w = true →
  session_state w !! "old_pred" = Some (VFloat p1) →
  session_state w !! "new_pred" = Some (VFloat p2) →
  session_state w !! "latency_ms" = Some (VFloat l) →
  run_prediction_clicked wd = false → submit_feedback_clicked wd = false →
  script_run' wd w
  = (mkWorld (init_map (session_state w)) (clock_reads w) (log_store w)
       (trace (entry_world wd w) ++ map EvUi (predictions_shown p1 p2 l)
        ++ [EvUi (Subheader "Your Feedback on These Predictions")]),
     inr ()).
Proof.
  intros Hr H1 H2 H3 Hrun Hsub. rewrite script_run_entry.
  destruct (entry_world_pred_ready wd w) as (v&Hk&Hv). rewrite Hr in Hv.
  unfold script_buttons. rewrite Hrun, Hsub.
  erewrite bind_ok by reflexivity.
  erewrite bind_ok
    by (apply (show_predictions_eq _ v p1 p2 l); try done;
        by apply init_map_lookup_present).
  erewrite bind_ok by reflexivity.
  unfold with_event. simpl. by rewrite <- !app_assoc.
Qed.

Lemma script_run_predict wd w p1 r1 p2 r2 :
  old_model (features_v1 wd) = inr (p1 :: r1) →
  new_model (features_v2 wd) = inr (p2 :: r2) →
  run_prediction_clicked wd = true → submit_feedback_clicked wd = false →
  let start_time := time_time (clock_reads w) in
  let end_time := time_time (S (clock_reads w)) in
  script_run' wd w
  = (mkWorld
       (commit wd p1 p2 (latency_of start_time end_time) (init_map (session_state w)))
       (S (S (clock_reads w))) (log_store w)
       (trace (entry_world wd w)
        ++ [EvTime start_time; EvPredict OldModel (features_v1 wd);
            EvPredict NewModel (features_v2 wd); EvTime end_time]
        ++ map EvUi (predictions_shown p1 p2 (latency_of start_time end_time))
        ++ [EvUi (Subheader "Your Feedback on These Predictions")]),
     inr ()).
Proof.
  intros H1 H2 Hrun Hsub start_time end_time. rewrite script_run_entry.
  unfold script_buttons. rewrite Hrun, Hsub.
  erewrite bind_ok by (by apply (run_prediction_ok _ _ _ _ _ p1 r1 p2 r2)).
  erewrite bind_ok
    by (apply (show_predictions_eq _ (VBool true) p1 p2
                 (latency_of start_time end_time));
        cbn [session_state]; rewrite ?commit_lookup; done).
  erewrite bind_ok by reflexivity.
  unfold with_event, mret, M_ret.
  cbn [session_state clock_reads log_store trace entry_world].
  by rewrite <- !app_assoc.
Qed.

Lemma buttons_tail_raises wd w v e :
  session_state w !! "pred_ready" = Some v →
  (truthy v = true → pinned (session_state w)) →
  ((show_predictions;;
    render (Subheader "Your Feedback on These Predictions");;
    (if submit_feedback_clicked wd then submit_feedback' wd else mret ())) w).2
  = inl e →
  submit_feedback_clicked wd = true
  ∧ ∃ args st, (log_prediction args st).2 = Some e.
Proof.
  intros Hk Hpin. destruct (truthy v) eqn:Hv.
  - destruct Hpin as (p1&p2&l&sm&H1&H2&H3&H4); [done|].
    erewrite bind_ok by (by apply (show_predictions_eq _ v p1 p2 l)).
    erewrite bind_ok by reflexivity.
    destruct (submit_feedback_clicked wd); [|done]. intros He. split; [done|].
    revert He.
    rewrite (submit_feedback_ready log_prediction wd _ v (VStr sm) (VFloat p1)
               (VFloat p2) (VFloat l)) by done.
    simpl.
    destruct (log_prediction _ _) as [st1 [e1|]] eqn:Hl1.
    { intros [= <-]. eexists _, _. by rewrite Hl1. }
    destruct (log_prediction _ st1) as [st2 [e2|]] eqn:Hl2; [|done].
    intros [= <-]. eexists _, _. by rewrite Hl2.
  - erewrite bind_ok by (by apply (show_predictions_not_ready _ v)).
    erewrite bind_ok by reflexivity.
    destruct (submit_feedback_clicked wd); [|done].
    by rewrite (submit_feedback_not_ready log_prediction wd _ v).
Qed.

Lemma script_run_raises wd w e :
  (is_ready w = true → pinned (session_state w)) →
  (script_run' wd w).2 = inl e →
  (run_prediction_clicked wd = true
   ∧ (run_prediction' wd (entry_world wd w)).2 = inl e)
  ∨ (submit_feedback_clicked wd = true
     ∧ ∃ args st, (log_prediction args st).2 = Some e).
Proof.
  intros Hpin. rewrite script_run_entry.
  destruct (entry_world_pred_ready wd w) as (v&Hk&Hv).
  assert (truthy v = true → pinned (session_state (entry_world wd w))) as Hpin0.
  { rewrite Hv. intros Hr. by apply pinned_init_map, Hpin. }
  unfold script_buttons. destruct (run_prediction_clicked wd).
  - destruct (run_prediction_cases old_model new_model time_time wd
                (entry_world wd w)) as [(p1&r1&p2&r2&H1&H2)|(e'&He'&_)].
    + erewrite bind_ok by (by apply (run_prediction_ok _ _ _ _ _ p1 r1 p2 r2)).
      intros He. right.
      eapply (buttons_tail_raises wd _ (VBool true)); [| |exact He].
      * cbn [session_state]. apply pred_ready_commit.
      * intros _. cbn [session_state]. apply pinned_commit.
    + destruct (run_prediction' wd (entry_world wd w)) as [w1 res] eqn:Hrun.
      simpl in He'. subst res. erewrite bind_err by done.
      intros [= <-]. by left.
  - erewrite bind_ok by reflexivity. intros He. right.
    by eapply (buttons_tail_raises wd _ v).
Qed.

Lemma elements_of_entry_world wd w :
  elements_of (trace (entry_world wd w))
  = elements_of (trace w)
    ++ [Title "Surgical Prediction App with Live Monitoring";
        SidebarHeader "Input Parameters"; Subheader "Input Summary";
        WriteFrame (input_df wd)].
Proof. unfold elements_of. simpl. by rewrite omap_app. Qed.

Lemma predicts_of_entry_world wd w :
  predicts_of (trace (entry_world wd w)) = predicts_of (trace w).
Proof. unfold predicts_of. simpl. rewrite omap_app. apply app_nil_r. Qed.

Lemma logs_of_app tr1 tr2 : logs_of (tr1 ++ tr2) = logs_of tr1 ++ logs_of tr2.
Proof. apply omap_app. Qed.

Lemma predicts_of_app tr1 tr2 :
  predicts_of (tr1 ++ tr2) = predicts_of tr1 ++ predicts_of tr2.
Proof. apply omap_app. Qed.

Lemma elements_of_app tr1 tr2 :
  elements_of (tr1 ++ tr2) = elements_of tr1 ++ elements_of tr2.
Proof. apply omap_app. Qed.

Lemma elements_of_map_EvUi els : elements_of (map EvUi els) = els.
Proof. unfold elements_of. induction els as [|el els IH]; simpl; by f_equal. Qed.

Lemma logs_of_map_EvUi els : logs_of (map EvUi els) = [].
Proof. unfold logs_of. by induction els. Qed.

Lemma predicts_of_map_EvUi els : predicts_of (map EvUi els) = [].
Proof. unfold predicts_of. by induction els. Qed.

(** X7: a run of the script in which no button was clicked, over a ready
    session holding its five keys, returns and leaves the session, the
    clock and the log as they were, invokes no model and no logger, and
    renders the stored scores and latency again. *)
Theorem rerender_changes_nothing wd w p1 p2 l :
  initialised (session_state w) → is_ready w = true →
  session_state w !! "old_pred" = Some (VFloat p1) →
  session_state w !! "new_pred" = Some (VFloat p2) →
  session_state w !! "latency_ms" = Some (VFloat l) →
  run_prediction_clicked wd = false → submit_feedback_clicked wd = false →
  (script_run' wd w).2 = inr ()
  ∧ session_state (script_run' wd w).1 = session_state w
  ∧ clock_reads (script_run' wd w).1 = clock_reads w
  ∧ log_store (script_run' wd w).1 = log_store w
  ∧ logs_of (trace (script_run' wd w).1) = logs_of (trace w)
  ∧ predicts_of (trace (script_run' wd w).1) = predicts_of (trace w)
  ∧ elements_of (trace (script_run' wd w).1)
    = elements_of (trace w)
      ++ [Title "Surgical Prediction App with Live Monitoring";
          SidebarHeader "Input Parameters"; Subheader "Input Summary";
          WriteFrame (input_df wd)]
      ++ predictions_shown p1 p2 l
      ++ [Subheader "Your Feedback on These Predictions"].
Proof.
  intros Hi Hr H1 H2 H3 Hrun Hsub.
  rewrite (script_run_rerender wd w p1 p2 l) by done.
  cbn [fst snd session_state clock_reads log_store trace].
  split_and!; try done.
  - by apply init_map_id.
  - rewrite !logs_of_app, logs_of_map_EvUi, entry_world_logs. simpl.
    by rewrite !app_nil_r.
  - rewrite !predicts_of_app, predicts_of_map_EvUi, predicts_of_entry_world.
    simpl. by rewrite !app_nil_r.
  - rewrite !elements_of_app, elements_of_map_EvUi, elements_of_entry_world.
    simpl. by rewrite <- !app_assoc.
Qed.

(** X8: a run of the script in which "Run Prediction" was clicked and both
    models return a score returns, commits the two scores, the latency and
    the summary over the initialised session, and in the same run renders
    the scores and the latency it has just committed; it calls no logger. *)
Theorem prediction_click_displays_scores wd w p1 r1 p2 r2 :
  old_model (features_v1 wd) = inr (p1 :: r1) →
  new_model (features_v2 wd) = inr (p2 :: r2) →
  run_prediction_clicked wd = true → submit_feedback_clicked wd = false →
  let latency :=
    latency_of (time_time (clock_reads w)) (time_time (S (clock_reads w))) in
  (script_run' wd w).2 = inr ()
  ∧ session_state (script_run' wd w).1
    = commit wd p1 p2 latency (init_map (session_state w))
  ∧ is_ready (script_run' wd w).1 = true
  ∧ elements_of (trace (script_run' wd w).1)
    = elements_of (trace w)
      ++ [Title "Surgical Prediction App with Live Monitoring";
          SidebarHeader "Input Parameters"; Subheader "Input Summary";
          WriteFrame (input_df wd)]
      ++ predictions_shown p1 p2 latency
      ++ [Subheader "Your Feedback on These Predictions"]
  ∧ logs_of (trace (script_run' wd w).1) = logs_of (trace w)
  ∧ log_store (script_run' wd w).1 = log_store w.
Proof.
  intros H1 H2 Hrun Hsub latency.
  rewrite (script_run_predict wd w p1 r1 p2 r2 H1 H2 Hrun Hsub).
  cbn [fst snd session_state clock_reads log_store trace].
  split; [reflexivity|]. split; [reflexivity|]. split.
  { unfold is_ready. cbn [session_state]. by rewrite pred_ready_commit. }
  split.
  { rewrite !elements_of_app, elements_of_map_EvUi, elements_of_entry_world.
    cbn [elements_of omap]. by rewrite <- !app_assoc. }
  split; [|reflexivity].
  rewrite !logs_of_app, logs_of_map_EvUi, entry_world_logs.
  cbn [logs_of omap]. by rewrite !app_nil_r.
Qed.

(** X9: what is logged is the input of the prediction, not the input on
    the page when feedback is submitted: after a run with the controls
    [wd1] that committed a prediction, a run with any controls [wd2] in
    which "Submit Feedback" was clicked calls the logger with the summary
    of [wd1] and the scores and latency of that prediction, and with the
    feedback of [wd2]. *)
Theorem feedback_logs_the_predicted_input wd1 wd2 w p1 r1 p2 r2 :
  old_model (features_v1 wd1) = inr (p1 :: r1) →
  new_model (features_v2 wd1) = inr (p2 :: r2) →
  run_prediction_clicked wd1 = true → submit_feedback_clicked wd1 = false →
  run_prediction_clicked wd2 = false → submit_feedback_clicked wd2 = true →
  let latency :=
    latency_of (time_time (clock_reads w)) (time_time (S (clock_reads w))) in
  let w1 := (script_run' wd1 w).1 in
  (log_prediction
     (mkLogArgs "v1_old" "baseline" (VStr (input_summary_of wd1)) (VFloat p1)
                (VFloat latency) (feedback_score wd2) (feedback_text wd2))
     (log_store w)).2 = None →
  logs_of (trace (script_run' wd2 w1).1)
  = logs_of (trace w)
    ++ [mkLogArgs "v1_old" "baseline" (VStr (input_summary_of wd1)) (VFloat p1)
                  (VFloat latency) (feedback_score wd2) (feedback_text wd2);
        mkLogArgs "v2_new" "improved" (VStr (input_summary_of wd1)) (VFloat p2)
                  (VFloat latency) (feedback_score_v2 wd2) (feedback_text_v2 wd2)].
Proof.
  intros H1 H2 Hrun1 Hsub1 Hrun2 Hsub2 latency w1 Hfirst.
  assert (logs_of (trace w1) = logs_of (trace w) ∧ log_store w1 = log_store w
          ∧ session_state w1 = commit wd1 p1 p2 latency (init_map (session_state w)))
    as (Hl & Hst & Hs).
  { subst w1. rewrite (script_run_predict wd1 w p1 r1 p2 r2 H1 H2 Hrun1 Hsub1).
    cbn [fst snd session_state clock_reads log_store trace].
    split; [|split; reflexivity].
    rewrite !logs_of_app, logs_of_map_EvUi, entry_world_logs.
    cbn [logs_of omap]. by rewrite !app_nil_r. }
  rewrite <- Hl. rewrite <- Hst in Hfirst.
  apply (script_run_two_calls old_model new_model time_time log_prediction wd2 w1
           (VStr (input_summary_of wd1)) p1 p2 latency);
    [ unfold is_ready; by rewrite Hs, pred_ready_commit
    | rewrite Hs, commit_lookup; reflexivity
    | rewrite Hs, commit_lookup; reflexivity
    | rewrite Hs, commit_lookup; reflexivity
    | rewrite Hs, commit_lookup; reflexivity
    | exact Hrun2 | exact Hsub2 | exact Hfirst ].
Qed.

Lemma run_prediction_elements wd w :
  elements_of (trace (run_prediction' wd w).1) = elements_of (trace w).
Proof.
  unfold run_prediction, mbind, M_mbind, M_bind, now, lift, predict, model_predict.
  rewrite df_select_v1, df_select_v2. simpl.
  destruct (old_model (features_v1 wd)) as [e1|[|p1 r1]]; simpl;
    [| |destruct (new_model (features_v2 wd)) as [e2|[|p2 r2]]; simpl];
    unfold elements_of; rewrite !omap_app; simpl; by rewrite ?app_nil_r.
Qed.

(** X10: a re-run of the prediction that fails does not unpin the earlier
    one: the run ends in the models' exception before anything is
    displayed, the session keeps the earlier scores, latency and summary,
    and feedback submitted afterwards is logged against them. *)
Theorem failed_rerun_keeps_previous_prediction wd1 wd2 w summary p1 p2 l e :
  is_ready w = true →
  session_state w !! "input_summary" = Some summary →
  session_state w !! "old_pred" = Some (VFloat p1) →
  session_state w !! "new_pred" = Some (VFloat p2) →
  session_state w !! "latency_ms" = Some (VFloat l) →
  run_prediction_clicked wd1 = true →
  (run_prediction' wd1 (entry_world wd1 w)).2 = inl e →
  run_prediction_clicked wd2 = false → submit_feedback_clicked wd2 = true →
  let w1 := (script_run' wd1 w).1 in
  (log_prediction
     (mkLogArgs "v1_old" "baseline" summary (VFloat p1) (VFloat l)
                (feedback_score wd2) (feedback_text wd2))
     (log_store w)).2 = None →
  (script_run' wd1 w).2 = inl e
  ∧ session_state w1 = init_map (session_state w)
  ∧ elements_of (trace w1)
    = elements_of (trace w)
      ++ [Title "Surgical Prediction App with Live Monitoring";
          SidebarHeader "Input Parameters"; Subheader "Input Summary";
          WriteFrame (input_df wd1)]
  ∧ logs_of (trace (script_run' wd2 w1).1)
    = logs_of (trace w)
      ++ [mkLogArgs "v1_old" "baseline" summary (VFloat p1) (VFloat l)
                    (feedback_score wd2) (feedback_text wd2);
          mkLogArgs "v2_new" "improved" summary (VFloat p2) (VFloat l)
                    (feedback_score_v2 wd2) (feedback_text_v2 wd2)].
Proof.
  intros Hr Hsm H1 H2 H3 Hrun1 Hfail Hrun2 Hsub2 w1 Hfirst.
  pose proof (run_prediction_err_frame old_model new_model time_time wd1 _ e Hfail)
    as (Hs & Hl & Hst).
  pose proof (run_prediction_elements wd1 (entry_world wd1 w)) as Hel.
  assert (script_run' wd1 w
          = ((run_prediction' wd1 (entry_world wd1 w)).1, inl e)) as Heq.
  { rewrite script_run_entry. unfold script_buttons. rewrite Hrun1.
    destruct (run_prediction' wd1 (entry_world wd1 w)) as [w' res] eqn:Hrun.
    simpl in Hfail. subst res. by erewrite bind_err. }
  subst w1. rewrite Heq. cbn [fst snd].
  cbn [entry_world session_state log_store] in Hs, Hst.
  rewrite entry_world_logs in Hl.
  split; [reflexivity|]. split; [exact Hs|]. split.
  { by rewrite Hel, elements_of_entry_world. }
  rewrite <- Hl. rewrite <- Hst in Hfirst.
  apply (script_run_two_calls old_model new_model time_time log_prediction wd2 _
           summary p1 p2 l);
    [ | rewrite Hs; by apply init_map_lookup_present
      | rewrite Hs; by apply init_map_lookup_present
      | rewrite Hs; by apply init_map_lookup_present
      | rewrite Hs; by apply init_map_lookup_present
      | exact Hrun2 | exact Hsub2 | exact Hfirst ].
  pose proof (entry_world_same_ready wd1 w) as Hsame.
  unfold same_ready, is_ready in *. rewrite Hs.
  cbn [entry_world session_state] in Hsame. congruence.
Qed.

(** X11: submitting feedback does not consume the prediction: with a
    logger that returns, a second submission over the same ready session
    makes the same two calls again, with the feedback then on the page, so
    the logger sees four calls for one prediction. *)
Theorem resubmission_logs_again wd wd' w v summary old_pred new_pred latency :
  session_state w !! "pred_ready" = Some v → truthy v = true →
  session_state w !! "input_summary" = Some summary →
  session_state w !! "old_pred" = Some old_pred →
  session_state w !! "new_pred" = Some new_pred →
  session_state w !! "latency_ms" = Some latency →
  (∀ args st, (log_prediction args st).2 = None) →
  logs_of (trace (submit_feedback' wd' (submit_feedback' wd w).1).1)
  = logs_of (trace w)
    ++ [mkLogArgs "v1_old" "baseline" summary old_pred latency
                  (feedback_score wd) (feedback_text wd);
        mkLogArgs "v2_new" "improved" summary new_pred latency
                  (feedback_score_v2 wd) (feedback_text_v2 wd);
        mkLogArgs "v1_old" "baseline" summary old_pred latency
                  (feedback_score wd') (feedback_text wd');
        mkLogArgs "v2_new" "improved" summary new_pred latency
                  (feedback_score_v2 wd') (feedback_text_v2 wd')].
Proof.
  intros Hk Hv H1 H2 H3 H4 Hlog.
  pose proof (same_session_submit_feedback log_prediction wd w) as Hs.
  unfold same_session in Hs.
  pose proof (submit_feedback_two_calls log_prediction wd w v summary old_pred
                new_pred latency Hk Hv H1 H2 H3 H4 (Hlog _ _)) as Hfirst.
  rewrite <- Hs in Hk, H1, H2, H3, H4.
  rewrite (submit_feedback_two_calls log_prediction wd' _ v summary old_pred
             new_pred latency Hk Hv H1 H2 H3 H4 (Hlog _ _)).
  rewrite Hfirst. unfold log_args_v1, log_args_v2. by rewrite <- app_assoc.
Qed.

(** X12: when the first logger call returns and the second raises, the
    handler ends in that exception with both calls made and no success
    message; the log is what the second call left of what the first had
    written, and the session state is unchanged. *)
Theorem second_logger_failure_after_first_call
    wd w v summary old_pred new_pred latency st1 st2 e :
  session_state w !! "pred_ready" = Some v → truthy v = true →
  session_state w !! "input_summary" = Some summary →
  session_state w !! "old_pred" = Some old_pred →
  session_state w !! "new_pred" = Some new_pred →
  session_state w !! "latency_ms" = Some latency →
  log_prediction
    (mkLogArgs "v1_old" "baseline" summary old_pred latency
               (feedback_score wd) (feedback_text wd))
    (log_store w) = (st1, None) →
  log_prediction
    (mkLogArgs "v2_new" "improved" summary new_pred latency
               (feedback_score_v2 wd) (feedback_text_v2 wd))
    st1 = (st2, Some e) →
  (submit_feedback' wd w).2 = inl e
  ∧ logs_of (trace (submit_feedback' wd w).1)
    = logs_of (trace w)
      ++ [mkLogArgs "v1_old" "baseline" summary old_pred latency
                    (feedback_score wd) (feedback_text wd);
          mkLogArgs "v2_new" "improved" summary new_pred latency
                    (feedback_score_v2 wd) (feedback_text_v2 wd)]
  ∧ successes_of (trace (submit_feedback' wd w).1) = successes_of (trace w)
  ∧ log_store (submit_feedback' wd w).1 = st2
  ∧ session_state (submit_feedback' wd w).1 = session_state w.
Proof.
  intros Hk Hv H1 H2 H3 H4 Hfirst Hsecond.
  rewrite (submit_feedback_ready _ _ _ _ _ _ _ _ Hk Hv H1 H2 H3 H4). simpl.
  unfold log_args_v1, log_args_v2. rewrite Hfirst, Hsecond. simpl.
  rewrite !logs_of_snoc, !successes_of_snoc. simpl.
  rewrite !app_nil_r. by rewrite <- app_assoc.
Qed.

(** X13: when both logger calls return, the handler returns and renders
    the success message once and no warning; the second call was given
    the log the first one left, and the log after the handler is the one
    the second call left. *)
Theorem feedback_saved_message
    wd w v summary old_pred new_pred latency st1 st2 :
  session_state w !! "pred_ready" = Some v → truthy v = true →
  session_state w !! "input_summary" = Some summary →
  session_state w !! "old_pred" = Some old_pred →
  session_state w !! "new_pred" = Some new_pred →
  session_state w !! "latency_ms" = Some latency →
  log_prediction
    (mkLogArgs "v1_old" "baseline" summary old_pred latency
               (feedback_score wd) (feedback_text wd))
    (log_store w) = (st1, None) →
  log_prediction
    (mkLogArgs "v2_new" "improved" summary new_pred latency
               (feedback_score_v2 wd) (feedback_text_v2 wd))
    st1 = (st2, None) →
  (submit_feedback' wd w).2 = inr ()
  ∧ successes_of (trace (submit_feedback' wd w).1)
    = successes_of (trace w)
      ++ ["Feedback and predictions have been saved to monitoring_logs.csv. You can now view them in the monitoring dashboard."]
  ∧ warnings_of (trace (submit_feedback' wd w).1) = warnings_of (trace w)
  ∧ log_store (submit_feedback' wd w).1 = st2.
Proof.
  intros Hk Hv H1 H2 H3 H4 Hfirst Hsecond.
  rewrite (submit_feedback_ready _ _ _ _ _ _ _ _ Hk Hv H1 H2 H3 H4). simpl.
  unfold log_args_v1, log_args_v2. rewrite Hfirst, Hsecond. simpl.
  rewrite !successes_of_snoc, !warnings_of_snoc. simpl.
  by rewrite !app_nil_r.
Qed.

End MoreProperties.

(** ** Further properties of whole sessions *)

Lemma initialised_commit wd p1 p2 l s : initialised (commit wd p1 p2 l s).
Proof.
  destruct (pinned_commit wd p1 p2 l s) as (?&?&?&?&H1&H2&H3&H4).
  unfold initialised. rewrite pred_ready_commit, H1, H2, H3, H4. eauto 10.
Qed.

Lemma script_run_initialised old_model new_model time_time log_prediction wd w :
  initialised
    (session_state (script_run old_model new_model time_time log_prediction wd w).1).
Proof.
  rewrite script_run_entry.
  assert (always (keeps (λ w, initialised (session_state w)))
                 (script_buttons old_model new_model time_time log_prediction wd))
    as Hkeep.
  { apply script_buttons_always; [apply keeps_preorder | | |].
    - intros w1 w2 (Hs&_) Hi. by rewrite Hs.
    - intros w1 Hi.
      destruct (run_prediction_cases old_model new_model time_time wd w1)
        as [(p1&r1&p2&r2&H1&H2)|(e&_&(Hs&_)&_)]; [|by rewrite Hs].
      rewrite (run_prediction_ok _ _ _ _ _ _ _ _ _ H1 H2).
      cbn [fst session_state]. apply initialised_commit.
    - intros w1 Hi.
      by rewrite (same_session_submit_feedback log_prediction wd w1). }
  apply Hkeep. cbn [entry_world session_state]. apply init_map_initialised.
Qed.

(** X14: in every session started fresh, whatever the controls, the
    models, the clock and the logger do: after every run all five workflow
    keys are set, and whenever the session is ready the stored scores and
    latency are floats and the summary a string, also after runs that ended
    in an exception. *)
Theorem session_keeps_prediction_pinned old_model new_model time_time runs :
  let w := session_runs old_model new_model time_time runs fresh_world in
  (runs ≠ [] → initialised (session_state w))
  ∧ (is_ready w = true → pinned (session_state w)).
Proof.
  intros w. split.
  - subst w. generalize fresh_world.
    induction runs as [|[wd lp] runs IH]; intros w0 Hne; [done|].
    cbn [session_runs].
    destruct runs as [|run runs]; [apply script_run_initialised|].
    by apply IH.
  - assert (session_inv w) as [Hpin _]; [|exact Hpin].
    apply (session_runs_keeps _ _ _ session_inv (script_run_keeps_inv _ _ _)).
    apply fresh_world_inv.
Qed.

(** X15: in a session started fresh, a run of the script ends in an
    exception only if "Run Prediction" was clicked and the prediction block
    ended in it (raised by a model, or IndexError on an empty score array),
    or "Submit Feedback" was clicked and a logger call raised it; reading
    the session and formatting the scores never fails. *)
Theorem script_raises_only_from_collaborators
    old_model new_model time_time runs log_prediction wd e :
  let w := session_runs old_model new_model time_time runs fresh_world in
  (script_run old_model new_model time_time log_prediction wd w).2 = inl e →
  (run_prediction_clicked wd = true
   ∧ (run_prediction old_model new_model time_time wd (entry_world wd w)).2
     = inl e)
  ∨ (submit_feedback_clicked wd = true
     ∧ ∃ args st, (log_prediction args st).2 = Some e).
Proof.
  intros w. apply script_run_raises.
  assert (session_inv w) as [Hpin _]; [|exact Hpin].
  apply (session_runs_keeps _ _ _ session_inv (script_run_keeps_inv _ _ _)).
  apply fresh_world_inv.
Qed.

(** ** The further properties at concrete sessions *)


Lemma show_predictions_renders_stored_witness :
  session_state example_ready_world !! "pred_ready" = Some (VBool true)
  ∧ (show_predictions example_ready_world).2 = inr ()
  ∧ elements_of (trace (show_predictions example_ready_world).1)
    = [Subheader "Predictions";
       Formatted "Old Model (v1 - ProposedProcedure + DisplayValue only): **" 30 "**";
       Formatted "New Model (v2 - ProposedProcedure + DisplayValue + StartHour + TurnAroundTime): **" 41.5 "**";
       Formatted "Latency: " 250 " ms"]
  ∧ session_state (init_session fresh_world).1 !! "pred_ready" = Some (VBool false)
  ∧ elements_of (trace (show_predictions (init_session fresh_world).1).1)
    = [Info "Click **Run Prediction** to see model outputs before giving feedback."]
  ∧ (show_predictions
       (mkWorld (<["pred_ready" := VBool true]> (init_session fresh_world).1.(session_state))
                0 [] [])).2
    = inl TypeError.
Proof.
  destruct show_predictions_renders_stored as (Hready & Hnot & Hnone & _).
  assert (session_state example_ready_world !! "pred_ready" = Some (VBool true))
    as Hk by (vm_compute; reflexivity).
  assert (session_state (init_session fresh_world).1 !! "pred_ready"
          = Some (VBool false)) as Hk' by (vm_compute; reflexivity).
  destruct (Hready example_ready_world (VBool true) 30%float 41.5%float 250%float)
    as (Hr1 & Hr2); try (vm_compute; reflexivity).
  destruct (Hnot (init_session fresh_world).1 (VBool false)) as (_ & Hn2);
    try (vm_compute; reflexivity).
  destruct (Hnone
              (mkWorld (<["pred_ready" := VBool true]>
                          (init_session fresh_world).1.(session_state)) 0 [] [])
              (VBool true)) as (He & _);
    try (vm_compute; reflexivity).
  split; [exact Hk|]. split; [exact Hr1|]. split; [exact Hr2|].
  split; [exact Hk'|]. split; [exact Hn2|]. exact He.
Defined.

Lemma rerender_changes_nothing_witness :
  let r := script_run (const_model 30) (const_model 41.5) example_clock
                      good_logger example_rerender example_ready_world in
  initialised (session_state example_ready_world)
  ∧ is_ready example_ready_world = true
  ∧ r.2 = inr ()
  ∧ session_state r.1 = session_state example_ready_world
  ∧ clock_reads r.1 = clock_reads example_ready_world
  ∧ log_store r.1 = log_store example_ready_world.
Proof.
  intros r.
  assert (initialised (session_state example_ready_world)) as Hi.
  { repeat split; vm_compute; eauto. }
  destruct (rerender_changes_nothing (const_model 30) (const_model 41.5)
              example_clock good_logger example_rerender example_ready_world
              30%float 41.5%float 250%float)
    as (H1&H2&H3&H4&_); try exact Hi; try (vm_compute; reflexivity).
  split; [exact Hi|]. split; [vm_compute; reflexivity|].
  split; [exact H1|]. split; [exact H2|]. split; [exact H3|]. exact H4.
Defined.

Lemma prediction_click_displays_scores_witness :
  let r := script_run (const_model 30) (const_model 41.5) example_clock
                      good_logger example_widgets fresh_world in
  const_model 30 (features_v1 example_widgets) = inr [30%float]
  ∧ r.2 = inr ()
  ∧ is_ready r.1 = true
  ∧ elements_of (trace r.1)
    = elements_of (trace fresh_world)
      ++ [Title "Surgical Prediction App with Live Monitoring";
          SidebarHeader "Input Parameters"; Subheader "Input Summary";
          WriteFrame (input_df example_widgets)]
      ++ predictions_shown 30 41.5 (latency_of 100 100.25)
      ++ [Subheader "Your Feedback on These Predictions"].
Proof.
  intros r.
  destruct (prediction_click_displays_scores (const_model 30) (const_model 41.5)
              example_clock good_logger example_widgets fresh_world
              30%float [] 41.5%float [] eq_refl eq_refl eq_refl eq_refl)
    as (H1&_&H3&H4&_).
  split; [reflexivity|]. split; [exact H1|]. split; [exact H3|]. exact H4.
Defined.

Lemma feedback_logs_the_predicted_input_witness :
  let w1 := (script_run (const_model 30) (const_model 41.5) example_clock
                        good_logger example_widgets fresh_world).1 in
  input_summary_of changed_feedback ≠ input_summary_of example_widgets
  ∧ logs_of (trace (script_run (const_model 30) (const_model 41.5) example_clock
                               good_logger changed_feedback w1).1)
    = [mkLogArgs "v1_old" "baseline" (VStr (input_summary_of example_widgets))
                 (VFloat 30) (VFloat (latency_of 100 100.25)) 1 "bad";
       mkLogArgs "v2_new" "improved" (VStr (input_summary_of example_widgets))
                 (VFloat 41.5) (VFloat (latency_of 100 100.25)) 2 ""].
Proof.
  intros w1. split; [vm_compute; discriminate|].
  apply (feedback_logs_the_predicted_input (const_model 30) (const_model 41.5)
           example_clock good_logger example_widgets changed_feedback fresh_world
           30%float [] 41.5%float [] eq_refl eq_refl eq_refl eq_refl eq_refl
           eq_refl eq_refl).
Defined.

Lemma failed_rerun_keeps_previous_prediction_witness :
  let run := script_run (const_model 30) broken_model example_clock good_logger in
  let w1 := (run example_widgets example_ready_world).1 in
  (run_prediction (const_model 30) broken_model example_clock example_widgets
     (entry_world example_widgets example_ready_world)).2
  = inl (Raised "predict")
  ∧ (run example_widgets example_ready_world).2 = inl (Raised "predict")
  ∧ session_state w1 = init_map (session_state example_ready_world)
  ∧ logs_of (trace (run changed_feedback w1).1)
    = [mkLogArgs "v1_old" "baseline"
         (VStr "StartHour=8, TurnAroundTime=15, DisplayValue=OR 1, ProposedProcedure=COLOSCP - COLONOSCOPY;")
         (VFloat 30) (VFloat 250) 1 "bad";
       mkLogArgs "v2_new" "improved"
         (VStr "StartHour=8, TurnAroundTime=15, DisplayValue=OR 1, ProposedProcedure=COLOSCP - COLONOSCOPY;")
         (VFloat 41.5) (VFloat 250) 2 ""].
Proof.
  intros run w1.
  assert ((run_prediction (const_model 30) broken_model example_clock
             example_widgets (entry_world example_widgets example_ready_world)).2
          = inl (Raised "predict")) as Hfail by (vm_compute; reflexivity).
  destruct (failed_rerun_keeps_previous_prediction (const_model 30) broken_model
              example_clock good_logger example_widgets changed_feedback
              example_ready_world
              (VStr "StartHour=8, TurnAroundTime=15, DisplayValue=OR 1, ProposedProcedure=COLOSCP - COLONOSCOPY;")
              30%float 41.5%float 250%float (Raised "predict"))
    as (H1&H2&_&H4); try exact Hfail; try (vm_compute; reflexivity).
  split; [exact Hfail|]. split; [exact H1|]. split; [exact H2|]. exact H4.
Defined.

Lemma resubmission_logs_again_witness :
  let summary :=
    VStr "StartHour=8, TurnAroundTime=15, DisplayValue=OR 1, ProposedProcedure=COLOSCP - COLONOSCOPY;" in
  let w1 := (submit_feedback good_logger example_feedback example_ready_world).1 in
  (∀ args st, (good_logger args st).2 = None)
  ∧ logs_of (trace (submit_feedback good_logger changed_feedback w1).1)
    = [mkLogArgs "v1_old" "baseline" summary (VFloat 30) (VFloat 250) 5 "great";
       mkLogArgs "v2_new" "improved" summary (VFloat 41.5) (VFloat 250) 3 "meh";
       mkLogArgs "v1_old" "baseline" summary (VFloat 30) (VFloat 250) 1 "bad";
       mkLogArgs "v2_new" "improved" summary (VFloat 41.5) (VFloat 250) 2 ""].
Proof.
  intros summary w1.
  assert (∀ args st, (good_logger args st).2 = None) as Hlog by reflexivity.
  split; [exact Hlog|].
  apply (resubmission_logs_again good_logger example_feedback changed_feedback
           example_ready_world (VBool true) summary (VFloat 30) (VFloat 41.5)
           (VFloat 250));
    try exact Hlog; vm_compute; reflexivity.
Defined.

Lemma second_logger_failure_after_first_call_witness :
  let summary :=
    VStr "StartHour=8, TurnAroundTime=15, DisplayValue=OR 1, ProposedProcedure=COLOSCP - COLONOSCOPY;" in
  let a1 := mkLogArgs "v1_old" "baseline" summary (VFloat 30) (VFloat 250) 5 "great" in
  let a2 := mkLogArgs "v2_new" "improved" summary (VFloat 41.5) (VFloat 250) 3 "meh" in
  let r := submit_feedback one_record_logger example_feedback example_ready_world in
  one_record_logger a1 [] = ([mkLogRecord 7 a1], None)
  ∧ one_record_logger a2 [mkLogRecord 7 a1]
    = ([mkLogRecord 7 a1], Some (Raised "log_prediction"))
  ∧ r.2 = inl (Raised "log_prediction")
  ∧ logs_of (trace r.1) = [a1; a2]
  ∧ successes_of (trace r.1) = []
  ∧ log_store r.1 = [mkLogRecord 7 a1].
Proof.
  intros summary a1 a2 r.
  destruct (second_logger_failure_after_first_call one_record_logger
              example_feedback example_ready_world (VBool true) summary
              (VFloat 30) (VFloat 41.5) (VFloat 250) [mkLogRecord 7 a1]
              [mkLogRecord 7 a1] (Raised "log_prediction"))
    as (H1&H2&H3&H4&_); try (vm_compute; reflexivity).
  split; [reflexivity|]. split; [reflexivity|].
  split; [exact H1|]. split; [exact H2|]. split; [exact H3|]. exact H4.
Defined.

Lemma feedback_saved_message_witness :
  let summary :=
    VStr "StartHour=8, TurnAroundTime=15, DisplayValue=OR 1, ProposedProcedure=COLOSCP - COLONOSCOPY;" in
  let a1 := mkLogArgs "v1_old" "baseline" summary (VFloat 30) (VFloat 250) 5 "great" in
  let a2 := mkLogArgs "v2_new" "improved" summary (VFloat 41.5) (VFloat 250) 3 "meh" in
  let r := submit_feedback good_logger example_feedback example_ready_world in
  good_logger a1 [] = ([mkLogRecord 7 a1], None)
  ∧ r.2 = inr ()
  ∧ successes_of (trace r.1)
    = ["Feedback and predictions have been saved to monitoring_logs.csv. You can now view them in the monitoring dashboard."]
  ∧ log_store r.1 = [mkLogRecord 7 a1; mkLogRecord 7 a2].
Proof.
  intros summary a1 a2 r.
  destruct (feedback_saved_message good_logger example_feedback
              example_ready_world (VBool true) summary (VFloat 30) (VFloat 41.5)
              (VFloat 250) [mkLogRecord 7 a1] [mkLogRecord 7 a1; mkLogRecord 7 a2])
    as (H1&H2&_&H4); try (vm_compute; reflexivity).
  split; [reflexivity|]. split; [exact H1|]. split; [exact H2|]. exact H4.
Defined.

Lemma session_keeps_prediction_pinned_witness :
  let w := session_runs (const_model 30) (const_model 41.5) example_clock
             [(example_widgets, good_logger); (example_feedback, full_disk_logger)]
             fresh_world in
  is_ready w = true ∧ initialised (session_state w) ∧ pinned (session_state w).
Proof.
  intros w.
  destruct (session_keeps_prediction_pinned (const_model 30) (const_model 41.5)
              example_clock
              [(example_widgets, good_logger); (example_feedback, full_disk_logger)])
    as (Hi & Hp).
  assert (is_ready w = true) as Hr by (vm_compute; reflexivity).
  split; [exact Hr|]. split; [by apply Hi | by apply Hp].
Defined.

Lemma script_raises_only_from_collaborators_witness :
  let w := session_runs (const_model 30) (const_model 41.5) example_clock
             [(example_widgets, good_logger)] fresh_world in
  (script_run (const_model 30) (const_model 41.5) example_clock full_disk_logger
              example_feedback w).2 = inl (Raised "log_prediction")
  ∧ ((run_prediction_clicked example_feedback = true
      ∧ (run_prediction (const_model 30) (const_model 41.5) example_clock
           example_feedback (entry_world example_feedback w)).2
        = inl (Raised "log_prediction"))
     ∨ (submit_feedback_clicked example_feedback = true
        ∧ ∃ args st, (full_disk_logger args st).2 = Some (Raised "log_prediction"))).
Proof.
  intros w.
  assert ((script_run (const_model 30) (const_model 41.5) example_clock
             full_disk_logger example_feedback w).2
          = inl (Raised "log_prediction")) as Hraise by (vm_compute; reflexivity).
  split; [exact Hraise|].
  exact (script_raises_only_from_collaborators (const_model 30) (const_model 41.5)
           example_clock [(example_widgets, good_logger)] full_disk_logger
           example_feedback (Raised "log_prediction") Hraise).
Defined.

(** ** The summary identifies the input *)

Lemma lacks_split c s1 s2 r1 r2 :
  lacks c s1 = true → lacks c s2 = true →
  s1 +:+ String c r1 = s2 +:+ String c r2 → s1 = s2 ∧ r1 = r2.
Proof.
  revert s2. induction s1 as [|a s1 IH]; intros [|b s2] H1 H2 Heq;
    cbn [String.append lacks] in *.
  - by injection Heq as ->.
  - injection Heq as -> _. apply andb_true_iff in H2 as [Hb _].
    by rewrite Ascii.eqb_refl in Hb.
  - injection Heq as -> _. apply andb_true_iff in H1 as [Ha _].
    by rewrite Ascii.eqb_refl in Ha.
  - injection Heq as -> Heq.
    apply andb_true_iff in H1 as [_ H1]. apply andb_true_iff in H2 as [_ H2].
    destruct (IH s2 H1 H2 Heq) as [-> ->]. done.
Qed.

Lemma pretty_lacks_comma (z : Z) :
  0 ≤ z ≤ 120 → lacks comma (pretty z) = true.
Proof.
  intros Hz.
  assert (forallb (λ n, lacks comma (pretty (Z.of_nat n))) (seq 0 121) = true)
    as Hall by (vm_compute; reflexivity).
  rewrite forallb_forall in Hall. specialize (Hall (Z.to_nat z)).
  rewrite Z2Nat.id in Hall by lia. apply Hall, in_seq. lia.
Qed.

Lemma option_lacks_comma v :
  selectbox_accepts DisplayValue_options v = true → lacks comma v = true.
Proof.
  unfold selectbox_accepts. rewrite existsb_exists.
  intros (x & Hin & Heq). apply String.eqb_eq in Heq. subst x.
  unfold DisplayValue_options in Hin. cbn [In] in Hin.
  repeat (destruct Hin as [<-|Hin]; [reflexivity|]). done.
Qed.

(** X16: within the domains of the controls, the summary string determines
    the four inputs: two inputs with the same summary have the same
    StartHour, TurnAroundTime, DisplayValue and ProposedProcedure. *)
Theorem input_summary_identifies_input wd wd' :
  widgets_in_domain wd = true → widgets_in_domain wd' = true →
  input_summary_of wd = input_summary_of wd' →
  StartHour wd = StartHour wd' ∧ TurnAroundTime wd = TurnAroundTime wd'
  ∧ DisplayValue wd = DisplayValue wd'
  ∧ ProposedProcedure wd = ProposedProcedure wd'.
Proof.
  unfold widgets_in_domain, slider_accepts, StartHour_slider,
    TurnAroundTime_slider. cbn [min_value max_value].
  rewrite !andb_true_iff, !Z.leb_le.
  intros (((((Hsh & Htat) & Hdv) & _) & _) & _).
  intros (((((Hsh' & Htat') & Hdv') & _) & _) & _).
  unfold input_summary_of.
  pose proof (pretty_lacks_comma (StartHour wd)) as L1.
  pose proof (pretty_lacks_comma (StartHour wd')) as L1'.
  pose proof (pretty_lacks_comma (TurnAroundTime wd)) as L2.
  pose proof (pretty_lacks_comma (TurnAroundTime wd')) as L2'.
  pose proof (option_lacks_comma _ Hdv) as L3.
  pose proof (option_lacks_comma _ Hdv') as L3'.
  intros Heq. apply (inj (String.append "StartHour=")) in Heq.
  apply lacks_split in Heq as [E1 Heq]; [|apply L1; lia|apply L1'; lia].
  apply (inj (String.append " TurnAroundTime=")) in Heq.
  apply lacks_split in Heq as [E2 Heq]; [|apply L2; lia|apply L2'; lia].
  apply (inj (String.append " DisplayValue=")) in Heq.
  apply lacks_split in Heq as [E3 Heq]; [|done|done].
  apply (inj (String.append " ProposedProcedure=")) in Heq.
  apply (inj pretty) in E1. apply (inj pretty) in E2. done.
Qed.

(** Outside the domains the summary is ambiguous. *)
Example input_summary_ambiguous_outside_domain :
  input_summary_of
    (mkWidgets 8 15 "OR 1, ProposedProcedure=X" "Y" false 4 "" 4 "" false)
  = input_summary_of
      (mkWidgets 8 15 "OR 1" "X, ProposedProcedure=Y" false 4 "" 4 "" false).
Proof. reflexivity. Qed.

Lemma input_summary_identifies_input_witness :
  widgets_in_domain example_widgets = true
  ∧ widgets_in_domain example_feedback = true
  ∧ input_summary_of example_widgets = input_summary_of example_feedback
  ∧ StartHour example_widgets = StartHour example_feedback
  ∧ DisplayValue example_widgets = DisplayValue example_feedback.
Proof.
  destruct (input_summary_identifies_input example_widgets example_feedback
              eq_refl eq_refl eq_refl) as (H1 & _ & H3 & _).
  split; [reflexivity|]. split; [reflexivity|]. split; [reflexivity|].
  split; [exact H1 | exact H3].
Defined.

(** ** Loading the models *)

Lemma app_run_cached joblib_load time_time log_prediction wd p w old_model new_model :
  cached_models p = Some (old_model, new_model) →
  app_run joblib_load time_time log_prediction wd (p, w)
  = ((p, (script_run old_model new_model time_time log_prediction wd w).1),
     (script_run old_model new_model time_time log_prediction wd w).2).
Proof.
  intros Hc. unfold app_run, cache_resource. rewrite Hc.
  by destruct (script_run _ _ _ _ _ _).
Qed.

Lemma app_run_first joblib_load time_time log_prediction wd p w old_model new_model :
  cached_models p = None →
  joblib_load "baseline_model_v1.pkl" = inr old_model →
  joblib_load "improved_model_v2.pkl" = inr new_model →
  app_run joblib_load time_time log_prediction wd (p, w)
  = ((mkProcess (Some (old_model, new_model))
                (joblib_loads p
                 ++ ["baseline_model_v1.pkl"; "improved_model_v2.pkl"]),
      (script_run old_model new_model time_time log_prediction wd w).1),
     (script_run old_model new_model time_time log_prediction wd w).2).
Proof.
  intros Hc Hold Hnew.
  unfold app_run, cache_resource, load_models, call_joblib_load.
  rewrite Hc, Hold. cbn [cached_models joblib_loads]. rewrite Hnew.
  cbn [cached_models joblib_loads]. rewrite <- app_assoc.
  by destruct (script_run _ _ _ _ _ _).
Qed.

Lemma app_runs_cached joblib_load time_time runs p w old_model new_model :
  cached_models p = Some (old_model, new_model) →
  app_runs joblib_load time_time runs (p, w)
  = (p, session_runs old_model new_model time_time runs w).
Proof.
  intros Hc. revert w.
  induction runs as [|[wd log_prediction] runs IH]; intros w; [done|].
  cbn [app_runs session_runs].
  rewrite (app_run_cached _ _ _ _ _ _ old_model new_model Hc). cbn [fst].
  apply IH.
Qed.

(** X17: when a model file cannot be loaded and no models are held, a run
    of the file ends in the exception of the first load that failed,
    baseline before improved; only the title has been rendered: the session
    is not even initialised, and no clock, model or logger is used; nothing
    is held afterwards, so the next run loads again. *)
Theorem missing_model_stops_the_run
    joblib_load time_time log_prediction wd p w e :
  cached_models p = None →
  (joblib_load "baseline_model_v1.pkl" = inl e
   ∨ (∃ old_model, joblib_load "baseline_model_v1.pkl" = inr old_model)
     ∧ joblib_load "improved_model_v2.pkl" = inl e) →
  let r := app_run joblib_load time_time log_prediction wd (p, w) in
  r.2 = inl e
  ∧ cached_models r.1.1 = None
  ∧ joblib_loads r.1.1
    = joblib_loads p ++ "baseline_model_v1.pkl"
      :: match joblib_load "baseline_model_v1.pkl" with
         | inr _ => ["improved_model_v2.pkl"]
         | inl _ => []
         end
  ∧ r.1.2
    = with_event (EvUi (Title "Surgical Prediction App with Live Monitoring")) w.
Proof.
  intros Hc Hfail r. subst r.
  unfold app_run, cache_resource, load_models, call_joblib_load, render.
  rewrite Hc. destruct Hfail as [Hold|[[old_model Hold] Hnew]]; rewrite Hold.
  - done.
  - cbn [cached_models joblib_loads]. rewrite Hnew.
    cbn [fst snd cached_models joblib_loads]. by rewrite <- app_assoc.
Qed.

(** X18: the model files are loaded once per process: when both files
    load, any sequence of runs of the file from a fresh process is the
    session of the script with those two models, and (unless there was no
    run) leaves the two models held and exactly two loads made, baseline
    then improved; a run that finds models held makes no load. *)
Theorem models_loaded_once joblib_load time_time old_model new_model :
  joblib_load "baseline_model_v1.pkl" = inr old_model →
  joblib_load "improved_model_v2.pkl" = inr new_model →
  (∀ runs w,
      runs ≠ [] →
      app_runs joblib_load time_time runs (fresh_process, w)
      = (mkProcess (Some (old_model, new_model))
                   ["baseline_model_v1.pkl"; "improved_model_v2.pkl"],
         session_runs old_model new_model time_time runs w))
  ∧ (∀ log_prediction wd p w held_old held_new,
        cached_models p = Some (held_old, held_new) →
        (app_run joblib_load time_time log_prediction wd (p, w)).1.1 = p
        ∧ (app_run joblib_load time_time log_prediction wd (p, w)).1.2
          = (script_run held_old held_new time_time log_prediction wd w).1).
Proof.
  intros Hold Hnew. split.
  - intros [|[wd log_prediction] runs] w Hne; [done|].
    cbn [app_runs session_runs].
    rewrite (app_run_first _ _ _ _ fresh_process _ old_model new_model eq_refl
               Hold Hnew).
    cbn [fst joblib_loads app]. by apply app_runs_cached.
  - intros log_prediction wd p w held_old held_new Hc.
    by rewrite (app_run_cached _ _ _ _ _ _ held_old held_new Hc).
Qed.

Lemma missing_model_stops_the_run_witness :
  let r := app_run missing_improved example_clock good_logger example_widgets
                   (fresh_process, fresh_world) in
  missing_improved "improved_model_v2.pkl" = inl (Raised "FileNotFoundError")
  ∧ r.2 = inl (Raised "FileNotFoundError")
  ∧ cached_models r.1.1 = None
  ∧ joblib_loads r.1.1 = ["baseline_model_v1.pkl"; "improved_model_v2.pkl"]
  ∧ session_state r.1.2 = ∅.
Proof.
  intros r.
  destruct (missing_model_stops_the_run missing_improved example_clock good_logger
              example_widgets fresh_process fresh_world
              (Raised "FileNotFoundError") eq_refl)
    as (H1 & H2 & H3 & H4).
  { right. split; [by eexists | reflexivity]. }
  split; [reflexivity|]. split; [exact H1|]. split; [exact H2|].
  split; [exact H3|]. fold r in H4. by rewrite H4.
Defined.

Lemma models_loaded_once_witness :
  let runs := [(example_widgets, good_logger); (example_feedback, good_logger)] in
  let pw := app_runs example_files example_clock runs (fresh_process, fresh_world) in
  joblib_loads pw.1 = ["baseline_model_v1.pkl"; "improved_model_v2.pkl"]
  ∧ map logged (log_store pw.2)
    = map logged
        (log_store (session_runs (const_model 30) (const_model 41.5)
                      example_clock runs fresh_world)).
Proof.
  intros runs pw.
  destruct (models_loaded_once example_files example_clock (const_model 30)
              (const_model 41.5) eq_refl eq_refl) as (Hruns & _).
  assert (runs ≠ []) as Hne by done.
  subst pw. rewrite (Hruns runs fresh_world Hne). cbn [fst snd]. by split.
Defined.
